(** * StateMachine.hpp: the transition engine of the Statecharts tool

    A shallow embedding of [src/tool/StateMachine.hpp] (class template
    [StateMachine<FSM, STATES_ID>]) and the properties of its
    [transition] method.

    Modelling choices.
    - [STATES_ID] is an enum: a natural number.  Its three mandatory
      enumerators [IGNORING_EVENT], [CANNOT_HAPPEN] and [MAX_STATES] are
      parameters of the development.  (A value cast from a negative
      integer is outside the model: the code would take it for a state
      below [MAX_STATES] and index [m_states] with it.)
    - [xFuncPtr] and [bFuncPtr] are pointers to member functions of the
      derived class [FSM]: a pointer names a method, [nullptr] is [None],
      and the derived class gives every method a body.  A body is a finite
      script over what a member function of [FSM] does to the engine: it
      reads [state()] and its own members, writes its own members and
      calls [transition(s, tr)] on itself.  (Bodies calling [reset()] or
      writing the protected field [m_current_state] directly are outside
      the model.)
    - [transition] is executed with explicit state passing.  The
      [do { } while] loop may run for ever (two entering handlers that
      request each other), so the loop takes fuel; the self call made by
      a callback is a real recursive call of [transition].
    - [exit(EXIT_FAILURE)] and undefined behaviour (dereferencing a null
      [tr], indexing [m_states] out of its bounds) are outcomes of their
      own.
    - The [LOGD] lines that matter are kept as a ghost log next to the
      invocations of the callbacks.
    - The [THREAD_SAFETY] lines are compiled out (no [m_mutex] member is
      declared) and are not modelled.

    The file has the model ([Module Engine]), a concrete machine
    ([Module Motor]), the properties of the model for every derived class
    ([Section Properties]) and, last, these properties and runs of the
    code on the concrete machine. *)

From stdpp Require Import base option list gmap.

Module Engine.

Section Model.

(** ** Data model *)

(** [enum STATES_ID] and its mandatory last three enumerators. *)
Definition StateId := nat.
Variables IGNORING_EVENT CANNOT_HAPPEN MAX_STATES : StateId.

(** Names of the member functions of the derived class: the pointers to
    members without argument returning [void], and those returning [bool]. *)
Context {xFuncPtr bFuncPtr : Type}.

(** The members the derived class adds to the engine's. *)
Context {Members : Type}.

(** [struct State]. *)
Record State := mkState {
  entering : option xFuncPtr;
  leaving : option xFuncPtr;
  onevent : option xFuncPtr
}.

(** [struct Transition]. *)
Record Transition := mkTransition {
  destination : StateId;
  guard : option bFuncPtr;
  action : option xFuncPtr
}.

(** A default-initialised [Transition]. *)
Definition Transition_default : Transition :=
  mkTransition IGNORING_EVENT None None.

(** What the engine logs and which callback it invokes (ghost). *)
Inductive event :=
| Memorize (s : StateId)                    (* "Internal event. Memorize state" *)
| CallGuard (g : bFuncPtr)
| CallAction (a : xFuncPtr)
| CallOnEvent (s : StateId) (f : xFuncPtr)
| CallLeaving (s : StateId) (f : xFuncPtr)
| CallEntering (s : StateId) (f : xFuncPtr).

Definition is_callback (e : event) : bool :=
  match e with Memorize _ => false | _ => true end.

Definition is_state_handler (e : event) : bool :=
  match e with
  | CallOnEvent _ _ | CallLeaving _ _ | CallEntering _ _ => true
  | _ => false
  end.

(** The fields of [StateMachine] (all but the table [m_states]), the
    members of the derived class and the ghost log. *)
Record StateMachine := mkStateMachine {
  m_current_state : StateId;
  m_initial_state : StateId;
  m_next_state : StateId;
  m_nesting_state : StateId;
  m_nesting : bool;
  members : Members;
  call_log : list event
}.

(** The invocations of callbacks, in order. *)
Definition callbacks (m : StateMachine) : list event :=
  filter (fun e => is_callback e = true) (call_log m).

(** The invocations of entering, leaving and on-event handlers. *)
Definition state_handlers (m : StateMachine) : list event :=
  filter (fun e => is_state_handler e = true) (call_log m).

Definition set_current_state (s : StateId) (m : StateMachine) :=
  mkStateMachine s (m_initial_state m) (m_next_state m) (m_nesting_state m)
    (m_nesting m) (members m) (call_log m).
Definition set_next_state (s : StateId) (m : StateMachine) :=
  mkStateMachine (m_current_state m) (m_initial_state m) s (m_nesting_state m)
    (m_nesting m) (members m) (call_log m).
Definition set_nesting_state (s : StateId) (m : StateMachine) :=
  mkStateMachine (m_current_state m) (m_initial_state m) (m_next_state m) s
    (m_nesting m) (members m) (call_log m).
Definition set_nesting (b : bool) (m : StateMachine) :=
  mkStateMachine (m_current_state m) (m_initial_state m) (m_next_state m)
    (m_nesting_state m) b (members m) (call_log m).
Definition set_members (u : Members) (m : StateMachine) :=
  mkStateMachine (m_current_state m) (m_initial_state m) (m_next_state m)
    (m_nesting_state m) (m_nesting m) u (call_log m).
Definition log (e : event) (m : StateMachine) :=
  mkStateMachine (m_current_state m) (m_initial_state m) (m_next_state m)
    (m_nesting_state m) (m_nesting m) (members m) (call_log m ++ [e]).

(** The body of a member function of [FSM] returning [R]. *)
Inductive code (R : Type) : Type :=
| Ret (r : R)
| Get (k : StateId -> Members -> code R)   (* reads state() and own members *)
| Put (u : Members) (k : code R)           (* writes own members *)
| Transit (s : StateId) (tr : option Transition) (k : code R).
                                           (* this->transition(s, tr) *)
Arguments Ret {R} r.
Arguments Get {R} k.
Arguments Put {R} u k.
Arguments Transit {R} s tr k.

(** The derived class: the bodies of its methods and the table of states
    its constructor fills ([std::array<State, MAX_STATES>]). *)
Variable xbody : xFuncPtr -> code unit.
Variable bbody : bFuncPtr -> code bool.
Variable m_states : list State.

(** ** Outcomes *)

Inductive fault := NullTransition | StateOutOfRange.

Inductive outcome :=
| Returned (m : StateMachine)               (* the call returned *)
| Exited (m : StateMachine)                 (* exit(EXIT_FAILURE) *)
| Fault (f : fault) (m : StateMachine)      (* undefined behaviour *)
| OutOfFuel.

(** A callback either finishes with a value or takes the process down. *)
Inductive result (R : Type) :=
| Done (r : R) (m : StateMachine)
| Abort (o : outcome).
Arguments Done {R} r m.
Arguments Abort {R} o.

(** What the loop body does next. *)
Inductive flow :=
| Next (m : StateMachine)                   (* reaches the [while] test *)
| Leave (o : outcome).                      (* return, exit or fault *)

Definition finish (x : result unit) (k : StateMachine -> flow) : flow :=
  match x with
  | Done _ m => k m
  | Abort o => Leave o
  end.

(** ** Simple methods *)

(** The constructor; [m_next_state] has no initialiser. *)
Definition StateMachine_new (initial garbage : StateId) (u : Members)
    : StateMachine :=
  mkStateMachine initial initial garbage CANNOT_HAPPEN false u [].

Definition reset (m : StateMachine) : StateMachine :=
  set_nesting false
    (set_nesting_state CANNOT_HAPPEN
       (set_current_state (m_initial_state m) m)).

Definition state (m : StateMachine) : StateId := m_current_state m.

(** ** Running callbacks *)

Section Callbacks.

(** [call] is [transition], as a callback reaches it. *)
Variable call : StateId -> option Transition -> StateMachine -> outcome.

Fixpoint exec {R : Type} (c : code R) (m : StateMachine) : result R :=
  match c with
  | Ret r => Done r m
  | Get k => exec (k (state m) (members m)) m
  | Put u k => exec k (set_members u m)
  | Transit s tr k =>
      match call s tr m with
      | Returned m' => exec k m'
      | o => Abort o
      end
  end.

(** [if (f != nullptr) { LOGD(...); (this->*f)(); }] *)
Definition invoke (ev : xFuncPtr -> event) (f : option xFuncPtr)
    (m : StateMachine) : result unit :=
  match f with
  | None => Done tt m
  | Some f => exec (xbody f) (log (ev f) m)
  end.

(** [guard_res = (tr->guard == nullptr);
     if (!guard_res) guard_res = (this->*tr->guard)();] *)
Definition call_guard (g : option bFuncPtr) (m : StateMachine) : result bool :=
  match g with
  | None => Done true m
  | Some g => exec (bbody g) (log (CallGuard g) m)
  end.

(** One pass through the body of the [do { } while] loop (lines 304 to
    404): pop the pending state, test the sentinels and the range, move,
    consult the guard, run the action, then the on-event handler of the
    state left, or its leaving handler and the entering handler of the new
    state. *)
Definition evaluate (tr : option Transition) (m : StateMachine) : flow :=
  let m := set_next_state (m_nesting_state m) m in              (* 304 *)
  let m := set_nesting_state CANNOT_HAPPEN m in                 (* 305 *)
  if m_next_state m =? CANNOT_HAPPEN then Leave (Exited m)      (* 308 *)
  else if m_next_state m =? IGNORING_EVENT then Leave (Returned m) (* 315 *)
  else if MAX_STATES <=? m_next_state m then Leave (Exited m)   (* 322 *)
  else
    let current_state := m_current_state m in                   (* 330 *)
    let m := set_current_state (m_next_state m) m in            (* 331 *)
    match m_states !! m_next_state m, m_states !! current_state with
    | Some nst, Some cst =>                                     (* 334, 335 *)
        let m := set_nesting true m in                          (* 338 *)
        match tr with
        | None => Leave (Fault NullTransition m)                (* 339 *)
        | Some t =>
            match call_guard (guard t) m with                   (* 339-343 *)
            | Abort o => Leave o
            | Done false m =>                                   (* 345-352 *)
                Leave (Returned
                  (set_nesting false (set_current_state current_state m)))
            | Done true m =>
                finish (invoke CallAction (action t) m) (fun m => (* 360 *)
                match onevent cst with
                | Some f =>                                     (* 369-375 *)
                    finish (exec (xbody f) (log (CallOnEvent current_state f) m))
                      (fun m => Leave (Returned m))
                | None =>
                    if negb (current_state =? m_next_state m) then (* 378 *)
                      finish (invoke (CallLeaving current_state) (leaving cst) m)
                        (fun m =>                               (* 380-387 *)
                      finish (invoke (CallEntering (m_next_state m)) (entering nst) m)
                        (fun m =>                               (* 389-396 *)
                      Next (set_nesting false m)))              (* 404 *)
                    else Next (set_nesting false m)             (* 404 *)
                end)
            end
        end
    | _, _ => Leave (Fault StateOutOfRange m)
    end.

(** The loop, at most [n] passes; it goes on as long as a callback left a
    state other than [CANNOT_HAPPEN] in [m_nesting_state] (line 406). *)
Fixpoint do_while (n : nat) (tr : option Transition) (m : StateMachine)
    : outcome :=
  match n with
  | 0 => OutOfFuel
  | S n' =>
      match evaluate tr m with
      | Leave o => o
      | Next m' =>
          if m_nesting_state m' =? CANNOT_HAPPEN then Returned m'
          else do_while n' tr m'
      end
  end.

End Callbacks.

(** [void transition(STATES_ID const new_state, const Transition* tr)]
    (lines 277 to 411): memorise the state; return if an evaluation is
    active; run the loop otherwise. *)
Fixpoint transition (fuel : nat) (new_state : StateId)
    (tr : option Transition) (m : StateMachine) : outcome :=
  match fuel with
  | 0 => OutOfFuel
  | S k =>
      let m := set_nesting_state new_state m in                 (* 290 *)
      if m_nesting m then Returned (log (Memorize new_state) m) (* 295-300 *)
      else do_while (transition k) k tr m                       (* 302-406 *)
  end.

(** [void transition(Transitions const& transitions)] (lines 241 to 252),
    with [Transitions = std::map<STATES_ID, Transition>]. *)
Definition transition_table (fuel : nat)
    (transitions : gmap StateId Transition) (m : StateMachine) : outcome :=
  match transitions !! m_current_state m with
  | Some t => transition fuel (destination t) (Some t) m
  | None => transition fuel IGNORING_EVENT None m
  end.

(** ** What a callback does while an evaluation is active

    The functions below read a body as a function of what it sees when
    it starts: the value it returns, the members it leaves and the states
    it passes to [transition], in order. *)

Fixpoint result_of {R : Type} (c : code R) (s : StateId) (u : Members) : R :=
  match c with
  | Ret r => r
  | Get k => result_of (k s u) s u
  | Put u' k => result_of k s u'
  | Transit _ _ k => result_of k s u
  end.

Fixpoint members_after {R : Type} (c : code R) (s : StateId) (u : Members)
    : Members :=
  match c with
  | Ret _ => u
  | Get k => members_after (k s u) s u
  | Put u' k => members_after k s u'
  | Transit _ _ k => members_after k s u
  end.

Fixpoint requests_of {R : Type} (c : code R) (s : StateId) (u : Members)
    : list StateId :=
  match c with
  | Ret _ => []
  | Get k => requests_of (k s u) s u
  | Put u' k => requests_of k s u'
  | Transit s' _ k => s' :: requests_of k s u
  end.

(** The machine once requests [reqs] were memorised and the members
    became [u]. *)
Definition absorbed (reqs : list StateId) (u : Members) (m : StateMachine)
    : StateMachine :=
  mkStateMachine (m_current_state m) (m_initial_state m) (m_next_state m)
    (default (m_nesting_state m) (last reqs)) (m_nesting m) u
    (call_log m ++ map Memorize reqs).

(** The machine after callback [c], logged as [e], ran to its end. *)
Definition after_call {R : Type} (e : event) (c : code R) (m : StateMachine)
    : StateMachine :=
  absorbed (requests_of c (state m) (members m))
    (members_after c (state m) (members m)) (log e m).

Definition after_invoke (ev : xFuncPtr -> event) (f : option xFuncPtr)
    (m : StateMachine) : StateMachine :=
  match f with
  | None => m
  | Some f => after_call (ev f) (xbody f) m
  end.

Definition after_guard (g : option bFuncPtr) (m : StateMachine)
    : StateMachine :=
  match g with
  | None => m
  | Some g => after_call (CallGuard g) (bbody g) m
  end.

(** The verdict of the guard of a record when [state()] is [s] and the
    members are [u]; no guard allows. *)
Definition guard_verdict (g : option bFuncPtr) (s : StateId) (u : Members)
    : bool :=
  match g with
  | None => true
  | Some g => result_of (bbody g) s u
  end.

(** The invocation an optional handler adds to the log. *)
Definition invoked {F : Type} (ev : F -> event) (f : option F)
    : list event :=
  match f with
  | None => []
  | Some f => [ev f]
  end.

(** A real state: none of the sentinels, and below [MAX_STATES]. *)
Definition is_real (s : StateId) : bool :=
  negb (s =? CANNOT_HAPPEN) && negb (s =? IGNORING_EVENT) && (s <? MAX_STATES).

(** A body that never calls [transition]. *)
Definition silent {R : Type} (c : code R) : Prop :=
  forall s u, requests_of c s u = [].

Definition silent_opt (f : option xFuncPtr) : Prop :=
  forall f', f = Some f' -> silent (xbody f').

(** ** The machine along one evaluation *)

(** The machine when the guard is consulted: the pending state was
    popped, the move to it made, the re-entrancy flag set. *)
Definition armed (m : StateMachine) : StateMachine :=
  mkStateMachine (m_nesting_state m) (m_initial_state m) (m_nesting_state m)
    CANNOT_HAPPEN true (members m) (call_log m).

(** The machine once the guard and the action of [t] ran. *)
Definition acted (t : Transition) (m : StateMachine) : StateMachine :=
  after_invoke CallAction (action t) (after_guard (guard t) (armed m)).

(** The machine once the leaving handler of [cst] and the entering handler
    of [nst] ran as well. *)
Definition moved (t : Transition) (cst nst : State) (m : StateMachine)
    : StateMachine :=
  after_invoke (CallEntering (m_nesting_state m)) (entering nst)
    (after_invoke (CallLeaving (m_current_state m)) (leaving cst) (acted t m)).

(** ** What the host sees of a call *)

(** The call returned and the host sees no change: same current state,
    same members, no callback invoked. *)
Definition returned_unchanged (m : StateMachine) (o : outcome) : Prop :=
  exists m',
    o = Returned m'
    /\ m_current_state m' = m_current_state m
    /\ members m' = members m
    /\ callbacks m' = callbacks m.

(** The call ended in [exit(EXIT_FAILURE)] before the current state, the
    members or the log were written. *)
Definition exited_untouched (m : StateMachine) (o : outcome) : Prop :=
  exists m',
    o = Exited m'
    /\ m_current_state m' = m_current_state m
    /\ members m' = members m
    /\ call_log m' = call_log m.

(** What the table of an event gives in state [s]: the destination of the
    entry of [s], [IGNORING_EVENT] without entry. *)
Definition resolve (transitions : gmap StateId Transition) (s : StateId)
    : StateId :=
  match transitions !! s with
  | Some t => destination t
  | None => IGNORING_EVENT
  end.

(** ** The requests made during one evaluation *)

(** What an optional handler requests, and the members it leaves. *)
Definition requests_opt (f : option xFuncPtr) (s : StateId) (u : Members)
    : list StateId :=
  match f with
  | None => []
  | Some f => requests_of (xbody f) s u
  end.

Definition members_opt (f : option xFuncPtr) (s : StateId) (u : Members)
    : Members :=
  match f with
  | None => u
  | Some f => members_after (xbody f) s u
  end.

(** The same for the guard of a record. *)
Definition guard_requests (g : option bFuncPtr) (s : StateId) (u : Members)
    : list StateId :=
  match g with
  | None => []
  | Some g => requests_of (bbody g) s u
  end.

Definition guard_members (g : option bFuncPtr) (s : StateId) (u : Members)
    : Members :=
  match g with
  | None => u
  | Some g => members_after (bbody g) s u
  end.

(** The requests made, in order, during the evaluation of a genuine
    change to [s] through record [t], from a state whose record is [cst]
    to the state whose record is [nst], the members being [u] at its
    start: those of the guard, of the action, of the leaving handler of
    [cst] and of the entering handler of [nst]; and the members at its
    end. *)
Definition requests_during (t : Transition) (cst nst : State) (s : StateId)
    (u : Members) : list StateId :=
  let u1 := guard_members (guard t) s u in
  let u2 := members_opt (action t) s u1 in
  let u3 := members_opt (leaving cst) s u2 in
  guard_requests (guard t) s u ++ requests_opt (action t) s u1
  ++ requests_opt (leaving cst) s u2 ++ requests_opt (entering nst) s u3.

Definition members_during (t : Transition) (cst nst : State) (s : StateId)
    (u : Members) : Members :=
  let u1 := guard_members (guard t) s u in
  let u2 := members_opt (action t) s u1 in
  let u3 := members_opt (leaving cst) s u2 in
  members_opt (entering nst) s u3.

(** ** The machine at the start of a pass *)

(** The machine once the pending state was popped (lines 304 and 305). *)
Definition popped (m : StateMachine) : StateMachine :=
  set_nesting_state CANNOT_HAPPEN (set_next_state (m_nesting_state m) m).

(** No state of the table has an on-event handler. *)
Definition no_onevent : Prop :=
  forall i st, m_states !! i = Some st -> onevent st = None.

(** No method of the derived class calls [transition]. *)
Definition all_silent : Prop :=
  (forall f, silent (xbody f)) /\ (forall g, silent (bbody g)).

(** No method of the derived class changes the members. *)
Definition members_kept : Prop :=
  (forall f s u, members_after (xbody f) s u = u)
  /\ (forall g s u, members_after (bbody g) s u = u).

(** ** Chains of requests *)

(** The handlers the move from [p] to [s] invokes. *)
Definition handlers_of (p s : StateId) : list event :=
  match m_states !! p, m_states !! s with
  | Some stp, Some sts =>
      invoked (CallLeaving p) (leaving stp)
      ++ invoked (CallEntering s) (entering sts)
  | _, _ => []
  end.

(** The handlers of the moves from [p] through the states of [path]. *)
Fixpoint handlers_along (p : StateId) (path : list StateId) : list event :=
  match path with
  | [] => []
  | s :: rest => handlers_of p s ++ handlers_along s rest
  end.

(** From [p] the states of [path] follow each other by request: each is
    a real state other than the one before; the state left has no
    on-event handler and its leaving handler requests nothing; the
    entering handler of each state requests the next one, last, and that
    of the final state requests nothing. *)
Fixpoint chain (p : StateId) (path : list StateId) : Prop :=
  match path with
  | [] => True
  | s :: rest =>
      p <> s /\ is_real s = true
      /\ (exists stp sts,
            m_states !! p = Some stp /\ m_states !! s = Some sts
            /\ onevent stp = None /\ silent_opt (leaving stp)
            /\ match rest with
               | [] => silent_opt (entering sts)
               | s' :: _ =>
                   exists e, entering sts = Some e
                     /\ forall x u, last (requests_of (xbody e) x u) = Some s'
               end)
      /\ chain s rest
  end.

(** ** Construction and sequences of events *)

(** The constructor with its [assert(initial < MAX_STATES)] (line 197):
    no machine when the assertion fails. *)
Definition construct (initial garbage : StateId) (u : Members)
    : option StateMachine :=
  if initial <? MAX_STATES then Some (StateMachine_new initial garbage u)
  else None.

(** The host dispatches events one after the other, each through the
    overload taking the table of the event; it goes on as long as the
    calls return. *)
Fixpoint dispatch_all (fuel : nat)
    (events : list (gmap StateId Transition)) (m : StateMachine) : outcome :=
  match events with
  | [] => Returned m
  | transitions :: rest =>
      match transition_table fuel transitions m with
      | Returned m' => dispatch_all fuel rest m'
      | o => o
      end
  end.

End Model.

Arguments Ret {_ _ _ R} r.
Arguments Get {_ _ _ R} k.
Arguments Put {_ _ _ R} u k.
Arguments Transit {_ _ _ R} s tr k.
Arguments Done {_ _ _ R} r m.
Arguments Abort {_ _ _ R} o.

End Engine.

Import Engine.

(** ** A concrete machine: the motor controller of the header's comment *)

Module Motor.

(** [enum StatesID { IDLE = 0, STOPPING, STARTING, SPINNING,
                     IGNORING_EVENT, CANNOT_HAPPEN, MAX_STATES }] *)
Definition IDLE : StateId := 0.
Definition STOPPING : StateId := 1.
Definition STARTING : StateId := 2.
Definition SPINNING : StateId := 3.
Definition IGNORING_EVENT : StateId := 4.
Definition CANNOT_HAPPEN : StateId := 5.
Definition MAX_STATES : StateId := 6.

(** The member functions used as reactions: one does nothing, one counts
    its invocations in the only member of the class, one requests a
    transition. *)
Inductive reaction := Noop | Tick | Request (s : StateId).

(** The member functions used as guards: one allows, one refuses, one
    allows as long as the counter is zero. *)
Inductive condition := Allow | Refuse | Unticked.

Definition xbody (f : reaction) : @code reaction condition nat unit :=
  match f with
  | Noop => Ret tt
  | Tick => Get (fun _ n => Put (S n) (Ret tt))
  | Request s => Transit s None (Ret tt)
  end.

Definition bbody (g : condition) : @code reaction condition nat bool :=
  match g with
  | Allow => Ret true
  | Refuse => Ret false
  | Unticked => Get (fun _ n => Ret (n =? 0))
  end.

Definition no_reaction : @State reaction := mkState None None None.

(** Tables of states, one per scenario; six entries, as [MAX_STATES]. *)
Definition counting_states : list (@State reaction) :=
  [ mkState None (Some Tick) None; no_reaction;
    mkState (Some Tick) None None; no_reaction; no_reaction; no_reaction ].

(** Entering [STARTING] requests [SPINNING]. *)
Definition chain_states : list (@State reaction) :=
  [ mkState None (Some Tick) None; no_reaction;
    mkState (Some (Request SPINNING)) (Some Tick) None;
    mkState (Some Tick) None None; no_reaction; no_reaction ].

(** Leaving [IDLE] requests [SPINNING], entering [STARTING] requests
    [STOPPING]. *)
Definition racing_states : list (@State reaction) :=
  [ mkState None (Some (Request SPINNING)) None;
    mkState (Some Tick) None None;
    mkState (Some (Request STOPPING)) None None;
    mkState (Some Tick) None None; no_reaction; no_reaction ].

(** [IDLE] reacts to events with an on-event handler. *)
Definition onevent_states : list (@State reaction) :=
  [ mkState (Some Tick) (Some Tick) (Some Noop); no_reaction;
    mkState (Some Tick) None None; no_reaction; no_reaction; no_reaction ].

(** Entering [STARTING] requests [CANNOT_HAPPEN]. *)
Definition trap_states : list (@State reaction) :=
  [ no_reaction; no_reaction;
    mkState (Some (Request CANNOT_HAPPEN)) None None;
    no_reaction; no_reaction; no_reaction ].

(** Transition records towards [STARTING]. *)
Definition plain : @Transition reaction condition :=
  mkTransition STARTING None None.
Definition allowed : @Transition reaction condition :=
  mkTransition STARTING (Some Allow) (Some Tick).
Definition refused : @Transition reaction condition :=
  mkTransition STARTING (Some Refuse) (Some Tick).
Definition once : @Transition reaction condition :=
  mkTransition STARTING (Some Unticked) (Some Tick).

(** The table of the event "set speed" of the header's matrix. *)
Definition set_speed : gmap StateId (@Transition reaction condition) :=
  {[ IDLE := mkTransition STARTING None None;
     STARTING := mkTransition SPINNING None None;
     SPINNING := mkTransition SPINNING None None ]}.

(** The table of an event forbidden in [IDLE]. *)
Definition forbidden : gmap StateId (@Transition reaction condition) :=
  {[ IDLE := mkTransition CANNOT_HAPPEN None None ]}.

(** A machine freshly constructed in state [s]. *)
Definition fresh (s : StateId) : @StateMachine reaction condition nat :=
  StateMachine_new CANNOT_HAPPEN s 0 0.

(** [transition] and its overload for this class. *)
Definition run (states : list (@State reaction)) :=
  transition IGNORING_EVENT CANNOT_HAPPEN MAX_STATES xbody bbody states.
Definition dispatch (states : list (@State reaction)) :=
  transition_table IGNORING_EVENT CANNOT_HAPPEN MAX_STATES xbody bbody states.

(** More tables of states.  Entering [STARTING] requests
    [IGNORING_EVENT]. *)
Definition ignore_states : list (@State reaction) :=
  [ mkState None (Some Tick) None; no_reaction;
    mkState (Some (Request IGNORING_EVENT)) None None;
    no_reaction; no_reaction; no_reaction ].

(** Entering [STARTING] requests a state that does not exist. *)
Definition unknown_states : list (@State reaction) :=
  [ mkState None (Some Tick) None; no_reaction;
    mkState (Some (Request 9)) None None;
    no_reaction; no_reaction; no_reaction ].

(** Entering [IDLE] requests [STARTING] and entering [STARTING] requests
    [IDLE]. *)
Definition pingpong_states : list (@State reaction) :=
  [ mkState (Some (Request STARTING)) None None; no_reaction;
    mkState (Some (Request IDLE)) None None;
    no_reaction; no_reaction; no_reaction ].

(** Entering [STARTING] requests [SPINNING], entering [SPINNING] requests
    [STOPPING]. *)
Definition tour_states : list (@State reaction) :=
  [ mkState None (Some Tick) None;
    mkState (Some Tick) None None;
    mkState (Some (Request SPINNING)) None None;
    mkState (Some (Request STOPPING)) (Some Tick) None;
    no_reaction; no_reaction ].

(** Leaving [IDLE] requests [SPINNING]; [STARTING] has no entering
    handler. *)
Definition handover_states : list (@State reaction) :=
  [ mkState None (Some (Request SPINNING)) None; no_reaction;
    mkState None (Some Tick) None;
    mkState (Some Tick) None None; no_reaction; no_reaction ].

(** The table of an event forbidden in [STARTING]. *)
Definition forbidden_in_starting
    : gmap StateId (@Transition reaction condition) :=
  {[ STARTING := mkTransition CANNOT_HAPPEN None None ]}.


(** A derived class whose methods do nothing. *)
Definition still_xbody (f : reaction) : @code reaction condition nat unit :=
  Ret tt.
Definition still_bbody (g : condition) : @code reaction condition nat bool :=
  match g with
  | Refuse => Ret false
  | _ => Ret true
  end.

End Motor.

(** * Properties *)

Section Properties.

Context (IGNORING_EVENT CANNOT_HAPPEN MAX_STATES : StateId).
Context {xFuncPtr bFuncPtr Members : Type}.
Context (xbody : xFuncPtr -> @code xFuncPtr bFuncPtr Members unit).
Context (bbody : bFuncPtr -> @code xFuncPtr bFuncPtr Members bool).
Context (m_states : list (@State xFuncPtr)).

Local Abbreviation State := (@State xFuncPtr).
Local Abbreviation Transition := (@Transition xFuncPtr bFuncPtr).
Local Abbreviation event := (@event xFuncPtr bFuncPtr).
Local Abbreviation StateMachine := (@StateMachine xFuncPtr bFuncPtr Members).
Local Abbreviation code := (@code xFuncPtr bFuncPtr Members).
Local Abbreviation invoke := (invoke xbody).
Local Abbreviation call_guard := (call_guard bbody).
Local Abbreviation evaluate :=
  (evaluate IGNORING_EVENT CANNOT_HAPPEN MAX_STATES xbody bbody m_states).
Local Abbreviation do_while :=
  (do_while IGNORING_EVENT CANNOT_HAPPEN MAX_STATES xbody bbody m_states).
Local Abbreviation transition :=
  (transition IGNORING_EVENT CANNOT_HAPPEN MAX_STATES xbody bbody m_states).
Local Abbreviation transition_table :=
  (transition_table IGNORING_EVENT CANNOT_HAPPEN MAX_STATES xbody bbody
     m_states).
Local Abbreviation after_invoke := (after_invoke xbody).
Local Abbreviation after_guard := (after_guard bbody).
Local Abbreviation guard_verdict := (guard_verdict bbody).
Local Abbreviation is_real := (is_real IGNORING_EVENT CANNOT_HAPPEN MAX_STATES).
Local Abbreviation silent_opt := (silent_opt xbody).
Local Abbreviation armed := (armed CANNOT_HAPPEN).
Local Abbreviation acted := (acted CANNOT_HAPPEN xbody bbody).
Local Abbreviation moved := (moved CANNOT_HAPPEN xbody bbody).

(** ** Lemmas on the re-entrant call and on callbacks *)

Lemma transition_nested k s tr (m : StateMachine) :
  m_nesting m = true ->
  transition (S k) s tr m = Returned (log (Memorize s) (set_nesting_state s m)).
Proof. intros H. simpl. by rewrite H. Qed.

Lemma absorbed_cons s reqs (u : Members) (m : StateMachine) :
  absorbed reqs u (log (Memorize s) (set_nesting_state s m))
  = absorbed (s :: reqs) u m.
Proof.
  unfold absorbed. simpl. rewrite <- app_assoc. simpl.
  f_equal. rewrite last_cons. by destruct (last reqs).
Qed.

Lemma exec_nested {R : Type} k (c : code R) (m : StateMachine) :
  m_nesting m = true ->
  exec (transition (S k)) c m
  = Done (result_of c (state m) (members m))
      (absorbed (requests_of c (state m) (members m))
         (members_after c (state m) (members m)) m).
Proof.
  revert m. induction c as [r | k' IH | u c IH | s tr c IH]; intros m Hn.
  - simpl. f_equal. destruct m. unfold absorbed. simpl. by rewrite app_nil_r.
  - simpl. by apply IH.
  - cbn [exec]. rewrite IH by done. simpl. f_equal.
  - cbn [exec]. rewrite transition_nested by done.
    rewrite IH by done. simpl. f_equal. apply absorbed_cons.
Qed.

Lemma invoke_nested k ev f (m : StateMachine) :
  m_nesting m = true ->
  invoke (transition (S k)) ev f m = Done tt (after_invoke ev f m).
Proof.
  intros Hn. destruct f as [f|]; cbn [Engine.invoke Engine.after_invoke]; [|done].
  rewrite exec_nested by done. f_equal. by destruct (result_of _ _ _).
Qed.

Lemma call_guard_nested k g (m : StateMachine) :
  m_nesting m = true ->
  call_guard (transition (S k)) g m
  = Done (guard_verdict g (state m) (members m)) (after_guard g m).
Proof.
  intros Hn. destruct g as [g|]; cbn [Engine.call_guard Engine.after_guard Engine.guard_verdict];
    [|done].
  by rewrite exec_nested.
Qed.

Lemma callbacks_absorbed reqs u (m : StateMachine) :
  callbacks (absorbed reqs u m) = callbacks m.
Proof.
  unfold callbacks, absorbed. simpl. rewrite filter_app.
  replace (filter _ (map Memorize reqs)) with (@nil event).
  - by rewrite app_nil_r.
  - induction reqs as [|s reqs IH]; [done|]. simpl.
    rewrite filter_cons_False; [done | simpl; congruence].
Qed.

Lemma state_handlers_absorbed reqs u (m : StateMachine) :
  state_handlers (absorbed reqs u m) = state_handlers m.
Proof.
  unfold state_handlers, absorbed. simpl. rewrite filter_app.
  replace (filter _ (map Memorize reqs)) with (@nil event).
  - by rewrite app_nil_r.
  - induction reqs as [|s reqs IH]; [done|]. simpl.
    rewrite filter_cons_False; [done | simpl; congruence].
Qed.

Lemma callbacks_log e (m : StateMachine) :
  is_callback e = true -> callbacks (log e m) = callbacks m ++ [e].
Proof.
  intros He. unfold callbacks, log. simpl. rewrite filter_app.
  f_equal. by rewrite filter_cons_True.
Qed.

Lemma callbacks_after_call {R : Type} e (c : code R) (m : StateMachine) :
  is_callback e = true -> callbacks (after_call e c m) = callbacks m ++ [e].
Proof.
  intros He. unfold after_call. rewrite callbacks_absorbed.
  by apply callbacks_log.
Qed.

Lemma callbacks_after_invoke ev f (m : StateMachine) :
  (forall f', is_callback (ev f') = true) ->
  callbacks (after_invoke ev f m) = callbacks m ++ invoked ev f.
Proof.
  intros He. destruct f as [f|]; simpl.
  - by apply callbacks_after_call.
  - by rewrite app_nil_r.
Qed.

Lemma callbacks_after_guard g (m : StateMachine) :
  callbacks (after_guard g m) = callbacks m ++ invoked CallGuard g.
Proof.
  destruct g as [g|]; simpl.
  - by apply callbacks_after_call.
  - by rewrite app_nil_r.
Qed.

Lemma is_real_tests s :
  is_real s = true ->
  (s =? CANNOT_HAPPEN) = false /\ (s =? IGNORING_EVENT) = false
  /\ (MAX_STATES <=? s) = false.
Proof.
  unfold Engine.is_real. rewrite !andb_true_iff, !negb_true_iff.
  intros [[H1 H2] H3]. repeat split; try done.
  apply Nat.ltb_lt in H3. apply Nat.leb_gt. lia.
Qed.

Lemma after_invoke_frame ev f (m : StateMachine) :
  m_current_state (after_invoke ev f m) = m_current_state m
  /\ m_initial_state (after_invoke ev f m) = m_initial_state m
  /\ m_next_state (after_invoke ev f m) = m_next_state m
  /\ m_nesting (after_invoke ev f m) = m_nesting m.
Proof. by destruct f. Qed.

Lemma after_guard_frame g (m : StateMachine) :
  m_current_state (after_guard g m) = m_current_state m
  /\ m_initial_state (after_guard g m) = m_initial_state m
  /\ m_next_state (after_guard g m) = m_next_state m
  /\ m_nesting (after_guard g m) = m_nesting m
  /\ (g = None -> members (after_guard g m) = members m).
Proof. destruct g; repeat split; done. Qed.

Lemma acted_frame t (m : StateMachine) :
  m_current_state (acted t m) = m_nesting_state m
  /\ m_initial_state (acted t m) = m_initial_state m
  /\ m_next_state (acted t m) = m_nesting_state m
  /\ m_nesting (acted t m) = true.
Proof.
  unfold Engine.acted.
  destruct (after_invoke_frame CallAction (action t)
              (after_guard (guard t) (armed m))) as (-> & -> & -> & ->).
  by destruct (after_guard_frame (guard t) (armed m)) as (-> & -> & -> & -> & _).
Qed.

Lemma moved_frame t cst nst (m : StateMachine) :
  m_current_state (moved t cst nst m) = m_nesting_state m
  /\ m_initial_state (moved t cst nst m) = m_initial_state m
  /\ m_next_state (moved t cst nst m) = m_nesting_state m
  /\ m_nesting (moved t cst nst m) = true.
Proof.
  unfold Engine.moved.
  destruct (after_invoke_frame (CallEntering (m_nesting_state m)) (entering nst)
              (after_invoke (CallLeaving (m_current_state m)) (leaving cst)
                 (acted t m))) as (-> & -> & -> & ->).
  destruct (after_invoke_frame (CallLeaving (m_current_state m)) (leaving cst)
              (acted t m)) as (-> & -> & -> & ->).
  apply acted_frame.
Qed.

Lemma callbacks_armed (m : StateMachine) : callbacks (armed m) = callbacks m.
Proof. done. Qed.

Lemma callbacks_acted t (m : StateMachine) :
  callbacks (acted t m)
  = callbacks m ++ invoked CallGuard (guard t) ++ invoked CallAction (action t).
Proof.
  unfold Engine.acted. rewrite callbacks_after_invoke by done.
  rewrite callbacks_after_guard, callbacks_armed. by rewrite <- app_assoc.
Qed.

Lemma callbacks_moved t cst nst (m : StateMachine) :
  callbacks (moved t cst nst m)
  = callbacks m ++ invoked CallGuard (guard t) ++ invoked CallAction (action t)
    ++ invoked (CallLeaving (m_current_state m)) (leaving cst)
    ++ invoked (CallEntering (m_nesting_state m)) (entering nst).
Proof.
  unfold Engine.moved. rewrite !callbacks_after_invoke by done.
  rewrite callbacks_acted. by rewrite <- !app_assoc.
Qed.

(** The common prefix of every evaluation of a real state: up to the
    guard. *)
Lemma evaluate_real k t (m : StateMachine) cst nst :
  is_real (m_nesting_state m) = true ->
  m_states !! m_nesting_state m = Some nst ->
  m_states !! m_current_state m = Some cst ->
  evaluate (transition (S k)) (Some t) m
  = if guard_verdict (guard t) (m_nesting_state m) (members m) then
      let m1 := acted t m in
      match onevent cst with
      | Some f =>
          Leave (Returned (after_call (CallOnEvent (m_current_state m) f)
                             (xbody f) m1))
      | None =>
          if negb (m_current_state m =? m_nesting_state m)
          then Next (set_nesting false (moved t cst nst m))
          else Next (set_nesting false m1)
      end
    else
      Leave (Returned (set_nesting false
               (set_current_state (m_current_state m)
                  (after_guard (guard t) (armed m))))).
Proof.
  intros Hreal Hn Hc.
  destruct (is_real_tests _ Hreal) as (E1 & E2 & E3).
  unfold Engine.evaluate. cbn [m_next_state set_next_state set_nesting_state
    m_nesting_state m_current_state set_current_state].
  rewrite E1, E2, E3, Hn, Hc.
  change (set_nesting true _) with (armed m).
  rewrite call_guard_nested by done.
  change (state (armed m)) with (m_nesting_state m).
  change (members (armed m)) with (members m).
  destruct (guard_verdict _ _ _); [|done].
  rewrite invoke_nested
    by (by destruct (after_guard_frame (guard t) (armed m)) as (_&_&_&->&_)).
  cbn [finish]. fold (acted t m).
  destruct (acted_frame t m) as (Hc1 & _ & Hn1 & Hnest1).
  destruct (onevent cst) as [f|].
  - rewrite exec_nested by done. cbn [finish]. done.
  - rewrite Hn1. destruct (negb _); [|done].
    rewrite invoke_nested by done. cbn [finish].
    rewrite invoke_nested
      by (by destruct (after_invoke_frame (CallLeaving (m_current_state m))
                         (leaving cst) (acted t m)) as (_&_&_&->)).
    cbn [finish].
    by destruct (after_invoke_frame (CallLeaving (m_current_state m))
                   (leaving cst) (acted t m)) as (_&_&->&_); rewrite Hn1.
Qed.

(** A genuine state change without on-event handler on the state left. *)
Lemma evaluate_change k t (m : StateMachine) cst nst :
  is_real (m_nesting_state m) = true ->
  m_states !! m_nesting_state m = Some nst ->
  m_states !! m_current_state m = Some cst ->
  onevent cst = None ->
  m_current_state m <> m_nesting_state m ->
  guard_verdict (guard t) (m_nesting_state m) (members m) = true ->
  evaluate (transition (S k)) (Some t) m
  = Next (set_nesting false (moved t cst nst m)).
Proof.
  intros Hreal Hn Hc Hon Hne Hg.
  rewrite (evaluate_real _ _ _ cst nst) by done.
  rewrite Hg, Hon. cbn zeta.
  by apply Nat.eqb_neq in Hne as ->.
Qed.

(** ** The call and its loop *)

Lemma transition_idle k s tr (m : StateMachine) :
  m_nesting m = false ->
  transition (S k) s tr m
  = do_while (transition k) k tr (set_nesting_state s m).
Proof. intros H. simpl. by rewrite H. Qed.

Lemma do_while_S call n tr (m : StateMachine) :
  do_while call (S n) tr m
  = match evaluate call tr m with
    | Leave o => o
    | Next m' =>
        if m_nesting_state m' =? CANNOT_HAPPEN then Returned m'
        else do_while call n tr m'
    end.
Proof. done. Qed.

(** A sentinel, or a state out of range, stops the evaluation before any
    field but the two temporaries is written. *)
Lemma evaluate_forbidden call tr (m : StateMachine) :
  m_nesting_state m = CANNOT_HAPPEN ->
  evaluate call tr m
  = Leave (Exited (set_nesting_state CANNOT_HAPPEN
                     (set_next_state CANNOT_HAPPEN m))).
Proof.
  intros H. unfold Engine.evaluate.
  cbn [m_next_state set_next_state set_nesting_state m_nesting_state].
  rewrite H. by rewrite Nat.eqb_refl.
Qed.

Lemma evaluate_ignoring call tr (m : StateMachine) :
  IGNORING_EVENT <> CANNOT_HAPPEN ->
  m_nesting_state m = IGNORING_EVENT ->
  evaluate call tr m
  = Leave (Returned (set_nesting_state CANNOT_HAPPEN
                       (set_next_state IGNORING_EVENT m))).
Proof.
  intros Hd H. unfold Engine.evaluate.
  cbn [m_next_state set_next_state set_nesting_state m_nesting_state].
  rewrite H. apply Nat.eqb_neq in Hd. by rewrite Hd, Nat.eqb_refl.
Qed.

Lemma evaluate_unknown call tr (m : StateMachine) :
  IGNORING_EVENT < MAX_STATES ->
  MAX_STATES <= m_nesting_state m ->
  evaluate call tr m
  = Leave (Exited (set_nesting_state CANNOT_HAPPEN
                     (set_next_state (m_nesting_state m) m))).
Proof.
  intros Hlt H. unfold Engine.evaluate.
  cbn [m_next_state set_next_state set_nesting_state m_nesting_state].
  destruct (m_nesting_state m =? CANNOT_HAPPEN); [done|].
  assert ((m_nesting_state m =? IGNORING_EVENT) = false) as ->
    by (apply Nat.eqb_neq; lia).
  by apply Nat.leb_le in H as ->.
Qed.

(** With no transition record the evaluation of a real state stops at
    [tr->guard]. *)
Lemma evaluate_null call (m : StateMachine) cst nst :
  is_real (m_nesting_state m) = true ->
  m_states !! m_nesting_state m = Some nst ->
  m_states !! m_current_state m = Some cst ->
  evaluate call None m = Leave (Fault NullTransition (armed m)).
Proof.
  intros Hreal Hn Hc.
  destruct (is_real_tests _ Hreal) as (E1 & E2 & E3).
  unfold Engine.evaluate. cbn [m_next_state set_next_state set_nesting_state
    m_nesting_state m_current_state set_current_state].
  by rewrite E1, E2, E3, Hn, Hc.
Qed.

(** ** The pending slot and the handlers' log along an evaluation *)

Lemma pending_after_invoke_silent ev f (m : StateMachine) :
  silent_opt f -> m_nesting_state (after_invoke ev f m) = m_nesting_state m.
Proof.
  intros Hs. destruct f as [f|]; [|done].
  cbn [Engine.after_invoke]. unfold after_call, absorbed.
  cbn [m_nesting_state]. by rewrite (Hs f eq_refl).
Qed.

Lemma pending_after_guard_silent g (m : StateMachine) :
  (forall g', g = Some g' -> silent (bbody g')) ->
  m_nesting_state (after_guard g m) = m_nesting_state m.
Proof.
  intros Hs. destruct g as [g|]; [|done].
  cbn [Engine.after_guard]. unfold after_call, absorbed.
  cbn [m_nesting_state]. by rewrite (Hs g eq_refl).
Qed.

Lemma pending_after_invoke_last ev f (m : StateMachine) s :
  (forall s' u, last (requests_of (xbody f) s' u) = Some s) ->
  m_nesting_state (after_invoke ev (Some f) m) = s.
Proof.
  intros Hl. cbn [Engine.after_invoke]. unfold after_call, absorbed.
  cbn [m_nesting_state]. by rewrite Hl.
Qed.

Lemma pending_acted_silent t (m : StateMachine) :
  (forall g, guard t = Some g -> silent (bbody g)) ->
  silent_opt (action t) ->
  m_nesting_state (acted t m) = CANNOT_HAPPEN.
Proof.
  intros Hg Ha. unfold Engine.acted.
  rewrite pending_after_invoke_silent by done.
  by rewrite pending_after_guard_silent.
Qed.

Lemma state_handlers_log e (m : StateMachine) :
  state_handlers (log e m)
  = state_handlers m ++ (if is_state_handler e then [e] else []).
Proof.
  unfold state_handlers, log. simpl. rewrite filter_app. f_equal.
  destruct (is_state_handler e) eqn:E.
  - by rewrite filter_cons_True.
  - rewrite filter_cons_False; [done | congruence].
Qed.

Lemma state_handlers_after_invoke ev f (m : StateMachine) :
  state_handlers (after_invoke ev f m)
  = state_handlers m
    ++ match f with
       | Some f => if is_state_handler (ev f) then [ev f] else []
       | None => []
       end.
Proof.
  destruct f as [f|]; cbn [Engine.after_invoke].
  - unfold after_call. rewrite state_handlers_absorbed.
    apply state_handlers_log.
  - by rewrite app_nil_r.
Qed.

Lemma state_handlers_acted t (m : StateMachine) :
  state_handlers (acted t m) = state_handlers m.
Proof.
  unfold Engine.acted. rewrite state_handlers_after_invoke.
  replace (match action t with Some f => _ | None => _ end) with (@nil event)
    by (by destruct (action t)).
  rewrite app_nil_r. destruct (guard t) as [g|]; cbn [Engine.after_guard].
  - unfold after_call. rewrite state_handlers_absorbed, state_handlers_log.
    by rewrite app_nil_r.
  - done.
Qed.

Lemma state_handlers_moved t cst nst (m : StateMachine) :
  state_handlers (moved t cst nst m)
  = state_handlers m
    ++ invoked (CallLeaving (m_current_state m)) (leaving cst)
    ++ invoked (CallEntering (m_nesting_state m)) (entering nst).
Proof.
  unfold Engine.moved. rewrite !state_handlers_after_invoke.
  rewrite state_handlers_acted, <- app_assoc.
  by destruct (leaving cst), (entering nst).
Qed.

(** ** Where the loop can exit *)

Lemma is_real_of_tests s :
  (s =? CANNOT_HAPPEN) = false -> (s =? IGNORING_EVENT) = false ->
  (MAX_STATES <=? s) = false -> is_real s = true.
Proof.
  intros E1 E2 E3. unfold Engine.is_real. rewrite E1, E2. simpl.
  apply Nat.ltb_lt. apply Nat.leb_gt in E3. lia.
Qed.

(** An evaluation ends in [exit] only at the tests on the state it pops. *)
Lemma evaluate_exit k tr (m m' : StateMachine) :
  evaluate (transition (S k)) tr m = Leave (Exited m') ->
  m_next_state m' = m_nesting_state m
  /\ (m_nesting_state m = CANNOT_HAPPEN \/ MAX_STATES <= m_nesting_state m).
Proof.
  destruct (m_nesting_state m =? CANNOT_HAPPEN) eqn:E1.
  { apply Nat.eqb_eq in E1. rewrite evaluate_forbidden by done.
    intros [= <-]. split; [by rewrite E1 | by left]. }
  destruct (m_nesting_state m =? IGNORING_EVENT) eqn:E2.
  { unfold Engine.evaluate. cbn [m_next_state set_next_state
      set_nesting_state m_nesting_state]. by rewrite E1, E2. }
  destruct (MAX_STATES <=? m_nesting_state m) eqn:E3.
  { unfold Engine.evaluate. cbn [m_next_state set_next_state
      set_nesting_state m_nesting_state]. rewrite E1, E2, E3.
    intros [= <-]. split; [done|]. right. by apply Nat.leb_le. }
  pose proof (is_real_of_tests _ E1 E2 E3) as Hreal.
  destruct (m_states !! m_nesting_state m) as [nst|] eqn:Hn;
    destruct (m_states !! m_current_state m) as [cst|] eqn:Hc;
    try (unfold Engine.evaluate; cbn [m_next_state set_next_state
      set_nesting_state m_nesting_state m_current_state set_current_state];
      rewrite E1, E2, E3, ?Hn, ?Hc; done).
  destruct tr as [t|].
  - rewrite (evaluate_real _ _ _ cst nst) by done.
    destruct (guard_verdict _ _ _); [|done]. cbn zeta.
    destruct (onevent cst); [done|]. by destruct (negb _).
  - by rewrite (evaluate_null _ _ cst nst).
Qed.

(** Past its first pass the loop pops what a callback left, and goes on
    only if that is not [CANNOT_HAPPEN]: the exit on the forbidden event
    is taken in the first pass or never. *)
Lemma do_while_forbidden_exit k n tr (m m' : StateMachine) :
  m_nesting_state m <> CANNOT_HAPPEN ->
  do_while (transition (S k)) n tr m = Exited m' ->
  m_next_state m' <> CANNOT_HAPPEN.
Proof.
  revert m. induction n as [|n IH]; intros m Hp; [done|].
  rewrite do_while_S.
  destruct (evaluate (transition (S k)) tr m) as [m1|o] eqn:Hev.
  - destruct (m_nesting_state m1 =? CANNOT_HAPPEN) eqn:E; [done|].
    apply IH. by apply Nat.eqb_neq.
  - intros ->. apply evaluate_exit in Hev as [-> _]. done.
Qed.

Lemma forbidden_exit_only_first fuel s tr (m m' : StateMachine) :
  m_nesting m = false ->
  transition fuel s tr m = Exited m' ->
  m_next_state m' = CANNOT_HAPPEN ->
  s = CANNOT_HAPPEN.
Proof.
  intros Hidle Hex Hnx. destruct fuel as [|[|k]]; [done | |].
  - by rewrite transition_idle in Hex.
  - rewrite transition_idle in Hex by done.
    destruct (decide (s = CANNOT_HAPPEN)) as [|Hne]; [done|].
    by apply do_while_forbidden_exit in Hex.
Qed.

(** The on-event return: the flag is still set and the move to the
    destination stays. *)
Lemma onevent_return_flag k (m : StateMachine) t f B cst nst :
  m_nesting m = false ->
  is_real B = true ->
  m_states !! B = Some nst ->
  m_states !! m_current_state m = Some cst ->
  onevent cst = Some f ->
  guard_verdict (guard t) B (members m) = true ->
  exists m',
    transition (S (S k)) B (Some t) m = Returned m'
    /\ m_nesting m' = true
    /\ m_current_state m' = B.
Proof.
  intros Hidle Hreal Hn Hc Hon Hg.
  rewrite transition_idle, do_while_S by done.
  rewrite (evaluate_real _ _ _ cst nst) by done.
  cbn [m_nesting_state set_nesting_state m_current_state members].
  rewrite Hg, Hon. cbn zeta.
  eexists. split; [done|].
  destruct (acted_frame t (set_nesting_state B m)) as (Hc1 & _ & _ & Hn1).
  split; [exact Hn1 | exact Hc1].
Qed.

(** ** Guard refusal, call order, on-event reactions *)

(** C4.  A transition whose guard returns false is refused: the call
    returns with the current state it started with (the guard itself saw
    the destination as [state()]), the flag cleared, and the guard is the
    only callback that ran: no action, no entering, leaving or on-event
    handler. *)
Theorem guard_refusal_rolls_back k (m : StateMachine) t g B cst nst :
  m_nesting m = false ->
  is_real B = true ->
  m_states !! B = Some nst ->
  m_states !! m_current_state m = Some cst ->
  guard t = Some g ->
  result_of (bbody g) B (members m) = false ->
  exists m',
    transition (S (S k)) B (Some t) m = Returned m'
    /\ m_current_state m' = m_current_state m
    /\ m_nesting m' = false
    /\ callbacks m' = callbacks m ++ [CallGuard g].
Proof.
  intros Hidle Hreal Hn Hc Hg Hres.
  rewrite transition_idle, do_while_S by done.
  rewrite (evaluate_real _ _ _ cst nst) by done.
  cbn [m_nesting_state set_nesting_state m_current_state members].
  rewrite Hg. cbn [Engine.guard_verdict]. rewrite Hres.
  eexists. split; [done|]. repeat split.
  cbn [Engine.after_guard].
  change (callbacks (set_nesting false (set_current_state (m_current_state m)
            (after_call (CallGuard g) (bbody g)
               (armed (set_nesting_state B m))))))
    with (callbacks (after_call (CallGuard g) (bbody g)
               (armed (set_nesting_state B m)))).
  by rewrite callbacks_after_call.
Qed.



(** ** Sentinels *)

Lemma pending_moved_silent t cst nst (m : StateMachine) :
  (forall g, guard t = Some g -> silent (bbody g)) ->
  silent_opt (action t) ->
  silent_opt (leaving cst) ->
  silent_opt (entering nst) ->
  m_nesting_state (moved t cst nst m) = CANNOT_HAPPEN.
Proof.
  intros Hg Ha Hl He. unfold Engine.moved.
  rewrite !pending_after_invoke_silent by done.
  by apply pending_acted_silent.
Qed.

Lemma transition_ignoring k tr (m : StateMachine) :
  IGNORING_EVENT <> CANNOT_HAPPEN ->
  returned_unchanged m (transition (S (S k)) IGNORING_EVENT tr m).
Proof.
  intros Hd. destruct (m_nesting m) eqn:Hnest.
  - rewrite transition_nested by done. eexists. split; [done|].
    repeat split. unfold callbacks, log. cbn [call_log set_nesting_state].
    rewrite filter_app, filter_cons_False by (simpl; congruence).
    by rewrite app_nil_r.
  - rewrite transition_idle, do_while_S by done.
    rewrite evaluate_ignoring by done. eexists. by split.
Qed.

Lemma transition_fatal k tr s (m : StateMachine) :
  IGNORING_EVENT < MAX_STATES ->
  m_nesting m = false ->
  s = CANNOT_HAPPEN \/ MAX_STATES <= s ->
  exited_untouched m (transition (S (S k)) s tr m).
Proof.
  intros Hlt Hidle Hs.
  rewrite transition_idle, do_while_S by done.
  destruct Hs as [-> | Hge].
  - rewrite evaluate_forbidden by done. eexists. by split.
  - rewrite evaluate_unknown by done. eexists. by split.
Qed.

(** C7.  An event resolved to [IGNORING_EVENT] changes nothing the host
    sees: the call returns with the same current state and members, and
    no callback was invoked.  So does the overload taking the table of
    the event when the table resolves the current state to
    [IGNORING_EVENT], which it does for a state without entry. *)
Theorem ignoring_event_is_noop k (m : StateMachine) tr
    (transitions : gmap StateId Transition) :
  IGNORING_EVENT <> CANNOT_HAPPEN ->
  returned_unchanged m (transition (S (S k)) IGNORING_EVENT tr m)
  /\ (transitions !! m_current_state m = None ->
      resolve IGNORING_EVENT transitions (m_current_state m) = IGNORING_EVENT)
  /\ (resolve IGNORING_EVENT transitions (m_current_state m) = IGNORING_EVENT ->
      returned_unchanged m (transition_table (S (S k)) transitions m)).
Proof.
  intros Hd. split; [|split].
  - by apply transition_ignoring.
  - intros Hnone. unfold resolve. by rewrite Hnone.
  - unfold resolve, Engine.transition_table.
    destruct (transitions !! m_current_state m) as [t|].
    + intros ->. by apply transition_ignoring.
    + intros _. by apply transition_ignoring.
Qed.

(** X17.  An event dispatched while no evaluation is active (the flag
    clear) and resolved to [CANNOT_HAPPEN], or to a value that is
    [MAX_STATES] or above, ends in [exit(EXIT_FAILURE)]; the current
    state, the members and the log are then those of the start, so no
    callback was invoked.  This holds for the call with the resolved
    destination and for the overload taking the table of the event. *)
Theorem forbidden_or_unknown_state_exits k (m : StateMachine) tr s
    (transitions : gmap StateId Transition) :
  IGNORING_EVENT < MAX_STATES ->
  m_nesting m = false ->
  s = CANNOT_HAPPEN \/ MAX_STATES <= s ->
  exited_untouched m (transition (S (S k)) s tr m)
  /\ (resolve IGNORING_EVENT transitions (m_current_state m) = s ->
      exited_untouched m (transition_table (S (S k)) transitions m)).
Proof.
  intros Hlt Hidle Hs. split.
  - by apply transition_fatal.
  - unfold resolve, Engine.transition_table.
    destruct (transitions !! m_current_state m) as [t|].
    + intros ->. by apply transition_fatal.
    + intros <-. by apply transition_fatal.
Qed.

(** C9.  What the code does on [transition(s, nullptr)] made outside an
    active evaluation with a real state [s]: the guard check reads
    [tr->guard] through the null pointer.  The move to [s] is made and
    the flag set when the fault occurs. *)
Theorem null_transition_record_faults k (m : StateMachine) s cst nst :
  m_nesting m = false ->
  is_real s = true ->
  m_states !! s = Some nst ->
  m_states !! m_current_state m = Some cst ->
  transition (S (S k)) s None m
  = Fault NullTransition (armed (set_nesting_state s m)).
Proof.
  intros Hidle Hreal Hn Hc.
  rewrite transition_idle, do_while_S by done.
  by rewrite (evaluate_null _ _ cst nst).
Qed.

(** C10.  A request for [CANNOT_HAPPEN] made by a callback is memorised
    like any other and leaves in the pending slot the very value the loop
    uses for "nothing pending": when it is the last request of the
    entering handler of the destination, the call returns normally, in
    the destination.  The same state given to a call outside an active
    evaluation ends in [exit(EXIT_FAILURE)]; and whatever the callbacks
    do, a call made outside an active evaluation takes the exit on the
    forbidden event (the one with [m_next_state] at [CANNOT_HAPPEN]) only
    if it was itself given [CANNOT_HAPPEN]. *)
Theorem deferred_cannot_happen_is_silent k (m : StateMachine) t e A B cst nst :
  m_nesting m = false ->
  m_current_state m = A ->
  A <> B ->
  is_real B = true ->
  m_states !! B = Some nst ->
  m_states !! A = Some cst ->
  onevent cst = None ->
  guard_verdict (guard t) B (members m) = true ->
  entering nst = Some e ->
  (forall s u, last (requests_of (xbody e) s u) = Some CANNOT_HAPPEN) ->
  (forall k' tr' (mn : StateMachine), m_nesting mn = true ->
     exists mn',
       transition (S k') CANNOT_HAPPEN tr' mn = Returned mn'
       /\ m_nesting_state mn' = CANNOT_HAPPEN
       /\ m_current_state mn' = m_current_state mn)
  /\ (exists m',
        transition (S (S k)) B (Some t) m = Returned m'
        /\ m_current_state m' = B
        /\ m_nesting m' = false
        /\ m_nesting_state m' = CANNOT_HAPPEN)
  /\ (exists m', transition (S (S k)) CANNOT_HAPPEN (Some t) m = Exited m')
  /\ (forall fuel s tr (mi mx : StateMachine), m_nesting mi = false ->
        transition fuel s tr mi = Exited mx ->
        m_next_state mx = CANNOT_HAPPEN ->
        s = CANNOT_HAPPEN).
Proof.
  intros Hidle HA Hne Hreal Hn Hc Hon Hg He Hlast. subst A.
  split; [|split; [|split]].
  - intros k' tr' mn Hnest. rewrite transition_nested by done.
    eexists. by split.
  - rewrite transition_idle, do_while_S by done.
    rewrite (evaluate_change _ _ _ cst nst) by done.
    assert (m_nesting_state (moved t cst nst (set_nesting_state B m))
            = CANNOT_HAPPEN) as Hp.
    { unfold Engine.moved. rewrite He. by apply pending_after_invoke_last. }
    cbn [m_nesting_state set_nesting]. rewrite Hp, Nat.eqb_refl.
    eexists. split; [done|]. repeat split; [|done].
    cbn [m_current_state set_nesting].
    by destruct (moved_frame t cst nst (set_nesting_state B m)) as (-> & _).
  - rewrite transition_idle, do_while_S by done.
    rewrite evaluate_forbidden by done. by eexists.
  - intros fuel s tr mi mx. apply forbidden_exit_only_first.
Qed.

(** ** Chained requests *)

Local Abbreviation requests_opt := (requests_opt xbody).
Local Abbreviation members_opt := (members_opt xbody).
Local Abbreviation guard_requests := (guard_requests bbody).
Local Abbreviation guard_members := (guard_members bbody).
Local Abbreviation requests_during := (requests_during xbody bbody).
Local Abbreviation members_during := (members_during xbody bbody).

Lemma default_last_app {A : Type} (d : A) (l1 l2 : list A) :
  default (default d (last l1)) (last l2) = default d (last (l1 ++ l2)).
Proof. rewrite last_app. by destruct (last l2). Qed.

Lemma after_invoke_effect ev f (m : StateMachine) :
  m_nesting_state (after_invoke ev f m)
  = default (m_nesting_state m)
      (last (requests_opt f (m_current_state m) (members m)))
  /\ members (after_invoke ev f m)
     = members_opt f (m_current_state m) (members m).
Proof. by destruct f. Qed.

Lemma after_guard_effect g (m : StateMachine) :
  m_nesting_state (after_guard g m)
  = default (m_nesting_state m)
      (last (guard_requests g (m_current_state m) (members m)))
  /\ members (after_guard g m)
     = guard_members g (m_current_state m) (members m).
Proof. by destruct g. Qed.

(** The pending slot and the members once the callbacks of a genuine
    change ran: the last request made, if any, and the members threaded
    through the four callbacks. *)
Lemma moved_effect (t : Transition) cst nst (m : StateMachine) :
  m_nesting_state (moved t cst nst m)
  = default CANNOT_HAPPEN
      (last (requests_during t cst nst (m_nesting_state m) (members m)))
  /\ members (moved t cst nst m)
     = members_during t cst nst (m_nesting_state m) (members m).
Proof.
  unfold Engine.moved, Engine.acted, Engine.requests_during,
    Engine.members_during. cbn zeta.
  set (mg := after_guard (guard t) (armed m)).
  set (ma := after_invoke CallAction (action t) mg).
  set (ml := after_invoke (CallLeaving (m_current_state m)) (leaving cst) ma).
  destruct (after_guard_effect (guard t) (armed m)) as [Pg Mg].
  destruct (after_guard_frame (guard t) (armed m)) as (Cg & _).
  destruct (after_invoke_effect CallAction (action t) mg) as [Pa Ma].
  destruct (after_invoke_frame CallAction (action t) mg) as (Ca & _).
  destruct (after_invoke_effect (CallLeaving (m_current_state m))
              (leaving cst) ma) as [Pl Ml].
  destruct (after_invoke_frame (CallLeaving (m_current_state m))
              (leaving cst) ma) as (Cl & _).
  destruct (after_invoke_effect (CallEntering (m_nesting_state m))
              (entering nst) ml) as [Pe Me].
  fold mg in Pg, Mg, Cg. fold ma in Pa, Ma, Ca. fold ml in Pl, Ml, Cl.
  cbn [m_current_state m_nesting_state members Engine.armed] in Pg, Mg, Cg.
  rewrite Cl, Ca, Cg in Pe, Me. rewrite Ca, Cg in Pl, Ml.
  rewrite Cg in Pa, Ma.
  rewrite Ml, Ma, Mg in Pe, Me. rewrite Ma, Mg in Pl, Ml.
  rewrite Mg in Pa, Ma.
  split; [|exact Me].
  rewrite Pe, Pl, Pa, Pg. by rewrite !default_last_app.
Qed.

(** C1, amended.  An external event resolves [A] to a different real
    state [B] through a record whose guard allows when it is consulted;
    neither [A] nor [B] has an on-event handler; the last request made
    during the evaluation of the move from [A] to [B], by whichever of its
    callbacks, is for a real state [C] other than [B]; the callbacks that
    run during the evaluation of the move from [B] to [C] request
    nothing.  Then the re-entrant call for [C] only memorises [C] and
    returns, and the call of the event returns with [C] as current state
    and nothing pending, after the handlers of the move from [A] to [B]
    ran, followed by those of the move from [B] to [C]. *)
Theorem chained_request_completes_in_order k (m : StateMachine) t A B C
    stA stB stC :
  m_nesting m = false ->
  m_current_state m = A ->
  A <> B ->
  B <> C ->
  is_real B = true ->
  is_real C = true ->
  m_states !! A = Some stA ->
  m_states !! B = Some stB ->
  m_states !! C = Some stC ->
  onevent stA = None ->
  onevent stB = None ->
  guard_verdict (guard t) B (members m) = true ->
  last (requests_during t stA stB B (members m)) = Some C ->
  guard_verdict (guard t) C (members_during t stA stB B (members m)) = true ->
  requests_during t stB stC C (members_during t stA stB B (members m)) = [] ->
  (forall k' tr' (mn : StateMachine), m_nesting mn = true ->
     transition (S k') C tr' mn
     = Returned (log (Memorize C) (set_nesting_state C mn)))
  /\ (exists m',
        transition (S (S (S k))) B (Some t) m = Returned m'
        /\ m_current_state m' = C
        /\ m_nesting m' = false
        /\ m_nesting_state m' = CANNOT_HAPPEN
        /\ state_handlers m'
           = state_handlers m
             ++ invoked (CallLeaving A) (leaving stA)
             ++ invoked (CallEntering B) (entering stB)
             ++ invoked (CallLeaving B) (leaving stB)
             ++ invoked (CallEntering C) (entering stC)).
Proof.
  intros Hidle HA HAB HBC HrB HrC HsA HsB HsC HonA HonB Hg1 Hlast Hg2 Hquiet.
  subst A. split.
  - intros k' tr' mn Hnest. by apply transition_nested.
  - set (m0 := set_nesting_state B m).
    set (m1 := set_nesting false (moved t stA stB m0)).
    assert (m_nesting_state m1 = C) as Hp1.
    { unfold m1. cbn [m_nesting_state set_nesting].
      destruct (moved_effect t stA stB m0) as [-> _].
      change (m_nesting_state m0) with B.
      change (members m0) with (members m). by rewrite Hlast. }
    assert (members m1 = members_during t stA stB B (members m)) as Hm1.
    { unfold m1. cbn [members set_nesting].
      by destruct (moved_effect t stA stB m0) as [_ ->]. }
    assert (m_current_state m1 = B) as Hc1.
    { unfold m1. cbn [m_current_state set_nesting].
      by destruct (moved_frame t stA stB m0) as (-> & _). }
    assert (state_handlers m1
            = state_handlers m
              ++ invoked (CallLeaving (m_current_state m)) (leaving stA)
              ++ invoked (CallEntering B) (entering stB)) as Hh1.
    { unfold m1.
      change (state_handlers (set_nesting false ?x)) with (state_handlers x).
      by rewrite state_handlers_moved. }
    rewrite transition_idle, do_while_S by done. fold m0.
    rewrite (evaluate_change _ _ _ stA stB) by done. fold m1.
    destruct (is_real_tests _ HrC) as (EC & _ & _).
    rewrite Hp1, EC, do_while_S.
    rewrite (evaluate_change _ _ _ stB stC)
      by (rewrite ?Hp1, ?Hc1, ?Hm1; done).
    set (m2 := set_nesting false (moved t stB stC m1)).
    assert (m_nesting_state m2 = CANNOT_HAPPEN) as Hp2.
    { unfold m2. cbn [m_nesting_state set_nesting].
      destruct (moved_effect t stB stC m1) as [-> _].
      by rewrite Hp1, Hm1, Hquiet. }
    rewrite Hp2, Nat.eqb_refl. exists m2. split; [done|].
    repeat split; [| done |].
    + unfold m2. cbn [m_current_state set_nesting].
      by destruct (moved_frame t stB stC m1) as (-> & _).
    + unfold m2.
      change (state_handlers (set_nesting false ?x)) with (state_handlers x).
      rewrite state_handlers_moved, Hh1, Hp1, Hc1.
      by rewrite <- !app_assoc.
Qed.

(** * More of the engine *)

Local Abbreviation popped := (popped CANNOT_HAPPEN).
Local Abbreviation no_onevent := (no_onevent m_states).

(** ** Every way through one pass of the loop *)

Lemma evaluate_cases (P : flow -> Prop) k tr (m : StateMachine) :
  (m_nesting_state m = CANNOT_HAPPEN
   \/ (m_nesting_state m <> IGNORING_EVENT /\ MAX_STATES <= m_nesting_state m) ->
   P (Leave (Exited (popped m)))) ->
  (m_nesting_state m <> CANNOT_HAPPEN -> m_nesting_state m = IGNORING_EVENT ->
   P (Leave (Returned (popped m)))) ->
  (is_real (m_nesting_state m) = true ->
   m_states !! m_nesting_state m = None \/ m_states !! m_current_state m = None ->
   P (Leave (Fault StateOutOfRange
               (set_current_state (m_nesting_state m) (popped m))))) ->
  (forall cst nst, is_real (m_nesting_state m) = true ->
   m_states !! m_nesting_state m = Some nst ->
   m_states !! m_current_state m = Some cst ->
   tr = None ->
   P (Leave (Fault NullTransition (armed m)))) ->
  (forall t cst nst, tr = Some t ->
   is_real (m_nesting_state m) = true ->
   m_states !! m_nesting_state m = Some nst ->
   m_states !! m_current_state m = Some cst ->
   guard_verdict (guard t) (m_nesting_state m) (members m) = false ->
   P (Leave (Returned (set_nesting false
                         (set_current_state (m_current_state m)
                            (after_guard (guard t) (armed m))))))) ->
  (forall t cst nst f, tr = Some t ->
   is_real (m_nesting_state m) = true ->
   m_states !! m_nesting_state m = Some nst ->
   m_states !! m_current_state m = Some cst ->
   guard_verdict (guard t) (m_nesting_state m) (members m) = true ->
   onevent cst = Some f ->
   P (Leave (Returned (after_call (CallOnEvent (m_current_state m) f)
                         (xbody f) (acted t m))))) ->
  (forall t cst nst, tr = Some t ->
   is_real (m_nesting_state m) = true ->
   m_states !! m_nesting_state m = Some nst ->
   m_states !! m_current_state m = Some cst ->
   guard_verdict (guard t) (m_nesting_state m) (members m) = true ->
   onevent cst = None ->
   m_current_state m <> m_nesting_state m ->
   P (Next (set_nesting false (moved t cst nst m)))) ->
  (forall t cst nst, tr = Some t ->
   is_real (m_nesting_state m) = true ->
   m_states !! m_nesting_state m = Some nst ->
   m_states !! m_current_state m = Some cst ->
   guard_verdict (guard t) (m_nesting_state m) (members m) = true ->
   onevent cst = None ->
   m_current_state m = m_nesting_state m ->
   P (Next (set_nesting false (acted t m)))) ->
  P (evaluate (transition (S k)) tr m).
Proof.
  intros Hexit Hign Hrange Hnull Hrefuse Hon Hmove Hself.
  destruct (m_nesting_state m =? CANNOT_HAPPEN) eqn:E1.
  { apply Nat.eqb_eq in E1. unfold Engine.evaluate.
    cbn [m_next_state set_next_state set_nesting_state m_nesting_state].
    apply Nat.eqb_eq in E1 as E1'. rewrite E1'. apply Hexit. by left. }
  destruct (m_nesting_state m =? IGNORING_EVENT) eqn:E2.
  { unfold Engine.evaluate.
    cbn [m_next_state set_next_state set_nesting_state m_nesting_state].
    rewrite E1, E2. apply Nat.eqb_neq in E1. apply Nat.eqb_eq in E2.
    by apply Hign. }
  destruct (MAX_STATES <=? m_nesting_state m) eqn:E3.
  { unfold Engine.evaluate.
    cbn [m_next_state set_next_state set_nesting_state m_nesting_state].
    rewrite E1, E2, E3. apply Hexit. right.
    apply Nat.eqb_neq in E2. by apply Nat.leb_le in E3. }
  pose proof (is_real_of_tests _ E1 E2 E3) as Hreal.
  destruct (m_states !! m_nesting_state m) as [nst|] eqn:Hn;
    [destruct (m_states !! m_current_state m) as [cst|] eqn:Hc|].
  - destruct tr as [t|].
    + rewrite (evaluate_real _ _ _ cst nst) by done.
      destruct (guard_verdict _ _ _) eqn:Hg; [|by eapply Hrefuse].
      cbn zeta. destruct (onevent cst) as [f|] eqn:Ho; [by eapply Hon|].
      destruct (m_current_state m =? m_nesting_state m) eqn:E.
      * apply Nat.eqb_eq in E. by eapply Hself.
      * apply Nat.eqb_neq in E. by eapply Hmove.
    + rewrite (evaluate_null _ _ cst nst) by done. by eapply Hnull.
  - unfold Engine.evaluate. cbn [m_next_state set_next_state
      set_nesting_state m_nesting_state m_current_state set_current_state].
    rewrite E1, E2, E3, Hn, Hc. apply Hrange; [done | by right].
  - unfold Engine.evaluate. cbn [m_next_state set_next_state
      set_nesting_state m_nesting_state m_current_state set_current_state].
    rewrite E1, E2, E3, Hn. apply Hrange; [done | by left].
Qed.

(** Reasoning on the loop: [I] holds at the start of every pass, [Q] of
    whatever the loop ends with. *)
Lemma do_while_invariant (I : StateMachine -> Prop) (Q : outcome -> Prop)
    call tr :
  Q OutOfFuel ->
  (forall m, I m ->
     match evaluate call tr m with
     | Next m1 => I m1 /\ (m_nesting_state m1 = CANNOT_HAPPEN -> Q (Returned m1))
     | Leave o => Q o
     end) ->
  forall n m, I m -> Q (do_while call n tr m).
Proof.
  intros Hfuel Hstep n. induction n as [|n IH]; intros m Hm; [done|].
  rewrite do_while_S. specialize (Hstep m Hm).
  destruct (evaluate call tr m) as [m1|o]; [|done].
  destruct Hstep as [Hm1 Hret].
  destruct (m_nesting_state m1 =? CANNOT_HAPPEN) eqn:E.
  - apply Hret. by apply Nat.eqb_eq.
  - by apply IH.
Qed.

(** Reasoning on a call: [Q] holds of the deferral, and of the loop run
    from an idle machine. *)
Lemma transition_cases (Q : outcome -> Prop) fuel s tr (m : StateMachine) :
  Q OutOfFuel ->
  (m_nesting m = true ->
   Q (Returned (log (Memorize s) (set_nesting_state s m)))) ->
  (forall k, m_nesting m = false ->
   Q (do_while (transition (S k)) (S k) tr (set_nesting_state s m))) ->
  Q (transition fuel s tr m).
Proof.
  intros Hfuel Hnest Hloop. destruct fuel as [|[|k]]; [done | |].
  - destruct (m_nesting m) eqn:E.
    + rewrite transition_nested by done. by apply Hnest.
    + by rewrite transition_idle.
  - destruct (m_nesting m) eqn:E.
    + rewrite transition_nested by done. by apply Hnest.
    + rewrite transition_idle by done. by apply Hloop.
Qed.

Lemma refused_frame (t : Transition) (m : StateMachine) :
  let m' := set_nesting false
              (set_current_state (m_current_state m)
                 (after_guard (guard t) (armed m))) in
  m_current_state m' = m_current_state m
  /\ m_initial_state m' = m_initial_state m
  /\ m_nesting m' = false.
Proof.
  cbn zeta. cbn [m_current_state m_initial_state m_nesting set_nesting
    set_current_state].
  by destruct (after_guard_frame (guard t) (armed m)) as (_ & -> & _).
Qed.

Lemma reacted_frame (t : Transition) f (m : StateMachine) :
  let m' := after_call (CallOnEvent (m_current_state m) f) (xbody f)
              (acted t m) in
  m_current_state m' = m_nesting_state m
  /\ m_initial_state m' = m_initial_state m
  /\ m_nesting m' = true.
Proof.
  cbn zeta. destruct (acted_frame t m) as (Hc & Hi & _ & Hn).
  unfold after_call, absorbed, log.
  cbn [m_current_state m_initial_state m_nesting]. by rewrite Hc, Hi, Hn.
Qed.

(** ** What every call keeps *)

Lemma transition_keeps_initial fuel s tr (m m' : StateMachine) :
  transition fuel s tr m = Returned m' ->
  m_initial_state m' = m_initial_state m.
Proof.
  intros Hret. revert m' Hret.
  apply (transition_cases
           (fun o => forall m', o = Returned m' ->
              m_initial_state m' = m_initial_state m)).
  - done.
  - by intros _ m' [= <-].
  - intros k _.
    apply (do_while_invariant
             (fun m0 => m_initial_state m0 = m_initial_state m)
             (fun o => forall m', o = Returned m' ->
                m_initial_state m' = m_initial_state m)); [done | | done].
    intros m0 H0.
    apply (evaluate_cases
             (fun fl => match fl with
                | Next m1 =>
                    m_initial_state m1 = m_initial_state m
                    /\ (m_nesting_state m1 = CANNOT_HAPPEN ->
                        forall m', Returned m1 = Returned m' ->
                          m_initial_state m' = m_initial_state m)
                | Leave o => forall m', o = Returned m' ->
                    m_initial_state m' = m_initial_state m
                end)).
    + done.
    + by intros _ _ m' [= <-].
    + done.
    + done.
    + intros t cst nst _ _ _ _ _ m' [= <-].
      by destruct (refused_frame t m0) as (_ & -> & _).
    + intros t cst nst f _ _ _ _ _ _ m' [= <-].
      by destruct (reacted_frame t f m0) as (_ & -> & _).
    + intros t cst nst _ _ _ _ _ _ _.
      assert (m_initial_state (set_nesting false (moved t cst nst m0))
              = m_initial_state m) as E.
      { cbn [m_initial_state set_nesting].
        by destruct (moved_frame t cst nst m0) as (_ & -> & _). }
      split; [done|]. by intros _ m' [= <-].
    + intros t cst nst _ _ _ _ _ _ _.
      assert (m_initial_state (set_nesting false (acted t m0))
              = m_initial_state m) as E.
      { cbn [m_initial_state set_nesting].
        by destruct (acted_frame t m0) as (_ & -> & _). }
      split; [done|]. by intros _ m' [= <-].
Qed.

(** X1.  No call writes [m_initial_state]: whatever the callbacks request
    and however many passes the loop makes, the machine a call returns has
    the initial state it started with; [reset()] then brings it back to
    that state, with the flag clear and nothing pending, and leaves the
    members of the derived class alone. *)
Theorem reset_restores_after_any_call fuel s tr (m m' : StateMachine) :
  transition fuel s tr m = Returned m' ->
  m_initial_state m' = m_initial_state m
  /\ state (reset CANNOT_HAPPEN m') = m_initial_state m
  /\ m_nesting (reset CANNOT_HAPPEN m') = false
  /\ m_nesting_state (reset CANNOT_HAPPEN m') = CANNOT_HAPPEN
  /\ members (reset CANNOT_HAPPEN m') = members m'.
Proof.
  intros Hret.
  assert (m_initial_state m' = m_initial_state m) as Hi
    by (by apply (transition_keeps_initial fuel s tr)).
  by repeat split.
Qed.

(** X2.  The current state stays a real state: if it is none of the
    sentinels and below [MAX_STATES] when a call is made, it is so when
    the call returns, whatever states the event and the callbacks asked
    for. *)
Theorem current_state_stays_real fuel s tr (m m' : StateMachine) :
  is_real (m_current_state m) = true ->
  transition fuel s tr m = Returned m' ->
  is_real (m_current_state m') = true.
Proof.
  intros Hreal. revert m'.
  apply (transition_cases
           (fun o => forall m', o = Returned m' ->
              is_real (m_current_state m') = true)).
  - done.
  - by intros _ m' [= <-].
  - intros k _.
    apply (do_while_invariant
             (fun m0 => is_real (m_current_state m0) = true)
             (fun o => forall m', o = Returned m' ->
                is_real (m_current_state m') = true)); [done | | done].
    intros m0 H0.
    apply (evaluate_cases
             (fun fl => match fl with
                | Next m1 =>
                    is_real (m_current_state m1) = true
                    /\ (m_nesting_state m1 = CANNOT_HAPPEN ->
                        forall m', Returned m1 = Returned m' ->
                          is_real (m_current_state m') = true)
                | Leave o => forall m', o = Returned m' ->
                    is_real (m_current_state m') = true
                end)).
    + done.
    + by intros _ _ m' [= <-].
    + done.
    + done.
    + intros t cst nst _ _ _ _ _ m' [= <-].
      by destruct (refused_frame t m0) as (-> & _).
    + intros t cst nst f _ Hr _ _ _ _ m' [= <-].
      by destruct (reacted_frame t f m0) as (-> & _).
    + intros t cst nst _ Hr _ _ _ _ _.
      assert (is_real (m_current_state (set_nesting false (moved t cst nst m0)))
              = true) as E.
      { cbn [m_current_state set_nesting].
        by destruct (moved_frame t cst nst m0) as (-> & _). }
      split; [done|]. by intros _ m' [= <-].
    + intros t cst nst _ Hr _ _ _ _ _.
      assert (is_real (m_current_state (set_nesting false (acted t m0)))
              = true) as E.
      { cbn [m_current_state set_nesting].
        by destruct (acted_frame t m0) as (-> & _). }
      split; [done|]. by intros _ m' [= <-].
Qed.

(** The guard check reads through a null record only when the call was
    given one together with a real state: a record given to the call
    stays for every pass of the loop. *)
Lemma transition_reads_no_null fuel s tr (m : StateMachine) mf :
  (tr = None -> is_real s = false) ->
  transition fuel s tr m <> Fault NullTransition mf.
Proof.
  intros Htr.
  set (Q := fun o : @outcome xFuncPtr bFuncPtr Members =>
              o <> Fault NullTransition mf).
  apply (transition_cases Q); [done | done |].
  intros k _.
  apply (do_while_invariant
           (fun m0 => tr = None -> is_real (m_nesting_state m0) = false) Q);
    [done | | done].
  intros m0 H0.
  apply (evaluate_cases
           (fun fl => match fl with
              | Next m1 =>
                  (tr = None -> is_real (m_nesting_state m1) = false)
                  /\ (m_nesting_state m1 = CANNOT_HAPPEN -> Q (Returned m1))
              | Leave o => Q o
              end)); unfold Q; try done.
  - intros cst nst Hr _ _ Hnone. rewrite (H0 Hnone) in Hr. done.
  - intros t cst nst -> _ _ _ _ _ _. by split.
  - intros t cst nst -> _ _ _ _ _ _. by split.
Qed.

(** X3.  A call given a transition record never reads through a null
    record: the record of the call serves every pass of the loop,
    whatever the callbacks request and whatever records, null or not,
    they pass to [transition] themselves. *)
Theorem call_with_record_never_reads_null fuel s t (m mf : StateMachine) :
  transition fuel s (Some t) m <> Fault NullTransition mf.
Proof. by apply transition_reads_no_null. Qed.

(** X15.  The overload taking the table of an event never reads through
    a null record: the null record it passes for a state without entry
    comes with [IGNORING_EVENT], on which the loop returns (or exits, if
    the two sentinels were one) before the guard check. *)
Theorem table_dispatch_never_reads_null fuel
    (transitions : gmap StateId Transition) (m mf : StateMachine) :
  transition_table fuel transitions m <> Fault NullTransition mf.
Proof.
  unfold Engine.transition_table.
  destruct (transitions !! m_current_state m) as [t|].
  - by apply transition_reads_no_null.
  - apply transition_reads_no_null. intros _.
    unfold Engine.is_real. rewrite Nat.eqb_refl.
    by rewrite andb_false_r.
Qed.

(** X4.  Without on-event handlers the engine is never left busy: if no
    state of the table has an on-event handler, a call made outside an
    active evaluation returns with the re-entrancy flag clear; and with
    nothing pending, when the guard of the record requests nothing. *)
Theorem no_onevent_returns_idle fuel s tr (m m' : StateMachine) :
  no_onevent ->
  m_nesting m = false ->
  transition fuel s tr m = Returned m' ->
  m_nesting m' = false
  /\ ((forall t g, tr = Some t -> guard t = Some g -> silent (bbody g)) ->
      m_nesting_state m' = CANNOT_HAPPEN).
Proof.
  intros Hno Hidle. revert m'.
  set (Q := fun o => forall m' : StateMachine, o = Returned m' ->
     m_nesting m' = false
     /\ ((forall t g, tr = Some t -> guard t = Some g -> silent (bbody g)) ->
         m_nesting_state m' = CANNOT_HAPPEN)).
  apply (transition_cases Q); [done | by rewrite Hidle |].
  intros k _.
  apply (do_while_invariant (fun m0 => m_nesting m0 = false) Q);
    [done | | done].
  intros m0 H0.
  apply (evaluate_cases
           (fun fl => match fl with
              | Next m1 =>
                  m_nesting m1 = false
                  /\ (m_nesting_state m1 = CANNOT_HAPPEN -> Q (Returned m1))
              | Leave o => Q o
              end)); unfold Q; try done.
  - by intros _ _ m' [= <-].
  - intros t cst nst -> _ _ _ Hv m' [= <-]. split; [done|].
    intros Hs. cbn [m_nesting_state set_nesting set_current_state].
    rewrite pending_after_guard_silent; [done|]. intros g. by apply Hs.
  - intros t cst nst f _ _ _ Hc _ Ho. apply Hno in Hc. congruence.
  - intros t cst nst _ _ _ _ _ _ _. split; [done|].
    by intros Hp m' [= <-].
  - intros t cst nst _ _ _ _ _ _ _. split; [done|].
    by intros Hp m' [= <-].
Qed.

(** ** Edges of one evaluation *)



(** X10.  The on-event return keeps the move: when the state left has an
    on-event handler and the guard allows, the call returns with the
    destination as current state, although neither the leaving handler of
    the state left nor the entering handler of the destination ran. *)
Theorem onevent_return_keeps_the_move k (m : StateMachine) t f A B cst nst :
  m_nesting m = false ->
  m_current_state m = A ->
  is_real B = true ->
  m_states !! B = Some nst ->
  m_states !! A = Some cst ->
  onevent cst = Some f ->
  guard_verdict (guard t) B (members m) = true ->
  exists m',
    transition (S (S k)) B (Some t) m = Returned m'
    /\ m_current_state m' = B
    /\ state_handlers m' = state_handlers m ++ [CallOnEvent A f].
Proof.
  intros Hidle HA Hreal Hn Hc Hon Hg. subst A.
  rewrite transition_idle, do_while_S by done.
  rewrite (evaluate_real _ _ _ cst nst) by done.
  cbn [m_nesting_state set_nesting_state m_current_state members].
  rewrite Hg, Hon. cbn zeta.
  eexists. split; [done|]. split.
  - destruct (reacted_frame t f (set_nesting_state B m)) as (H & _).
    exact H.
  - unfold after_call. rewrite state_handlers_absorbed, state_handlers_log.
    by rewrite state_handlers_acted.
Qed.

(** ** Requests deferred to the next pass *)

(** X6.  A deferred request for [IGNORING_EVENT] is no request: when it
    is the last request of the entering handler of the destination, the
    next pass pops it and returns; the machine stays in the destination,
    the flag clear and nothing pending, and nothing more was invoked. *)
Theorem deferred_ignoring_event_returns k (m : StateMachine) t e A B cst nst :
  IGNORING_EVENT <> CANNOT_HAPPEN ->
  m_nesting m = false ->
  m_current_state m = A ->
  A <> B ->
  is_real B = true ->
  m_states !! B = Some nst ->
  m_states !! A = Some cst ->
  onevent cst = None ->
  guard_verdict (guard t) B (members m) = true ->
  entering nst = Some e ->
  (forall s u, last (requests_of (xbody e) s u) = Some IGNORING_EVENT) ->
  exists m',
    transition (S (S (S k))) B (Some t) m = Returned m'
    /\ m_current_state m' = B
    /\ m_nesting m' = false
    /\ m_nesting_state m' = CANNOT_HAPPEN
    /\ callbacks m'
       = callbacks m ++ invoked CallGuard (guard t)
         ++ invoked CallAction (action t)
         ++ invoked (CallLeaving A) (leaving cst) ++ [CallEntering B e].
Proof.
  intros Hd Hidle HA Hne Hreal Hn Hc Hon Hg He Hlast. subst A.
  set (m0 := set_nesting_state B m).
  set (m1 := set_nesting false (moved t cst nst m0)).
  assert (m_nesting_state m1 = IGNORING_EVENT) as Hp.
  { unfold m1, Engine.moved. cbn [m_nesting_state set_nesting].
    rewrite He. by apply pending_after_invoke_last. }
  rewrite transition_idle, do_while_S by done. fold m0.
  rewrite (evaluate_change _ _ _ cst nst) by done. fold m1.
  apply Nat.eqb_neq in Hd as Hd'. rewrite Hp, Hd', do_while_S.
  rewrite evaluate_ignoring by done.
  eexists. split; [done|]. repeat split.
  - cbn [m_current_state set_nesting_state set_next_state]. unfold m1.
    cbn [m_current_state set_nesting].
    by destruct (moved_frame t cst nst m0) as (-> & _).
  - change (callbacks (set_nesting_state CANNOT_HAPPEN
                         (set_next_state IGNORING_EVENT m1)))
      with (callbacks (moved t cst nst m0)).
    rewrite callbacks_moved, He. done.
Qed.

(** X7.  A deferred request for a state out of range ends the process,
    after the transition that was being evaluated: when it is the last
    request of the entering handler of the destination, the move to the
    destination is complete, its handlers ran, and the next pass reaches
    [exit(EXIT_FAILURE)]. *)
Theorem deferred_unknown_state_exits k (m : StateMachine) t e A B s cst nst :
  IGNORING_EVENT < MAX_STATES ->
  MAX_STATES <= s ->
  s <> CANNOT_HAPPEN ->
  m_nesting m = false ->
  m_current_state m = A ->
  A <> B ->
  is_real B = true ->
  m_states !! B = Some nst ->
  m_states !! A = Some cst ->
  onevent cst = None ->
  guard_verdict (guard t) B (members m) = true ->
  entering nst = Some e ->
  (forall s' u, last (requests_of (xbody e) s' u) = Some s) ->
  exists m',
    transition (S (S (S k))) B (Some t) m = Exited m'
    /\ m_current_state m' = B
    /\ m_next_state m' = s
    /\ callbacks m'
       = callbacks m ++ invoked CallGuard (guard t)
         ++ invoked CallAction (action t)
         ++ invoked (CallLeaving A) (leaving cst) ++ [CallEntering B e].
Proof.
  intros Hlt Hge Hs Hidle HA Hne Hreal Hn Hc Hon Hg He Hlast. subst A.
  set (m0 := set_nesting_state B m).
  set (m1 := set_nesting false (moved t cst nst m0)).
  assert (m_nesting_state m1 = s) as Hp.
  { unfold m1, Engine.moved. cbn [m_nesting_state set_nesting].
    rewrite He. by apply pending_after_invoke_last. }
  rewrite transition_idle, do_while_S by done. fold m0.
  rewrite (evaluate_change _ _ _ cst nst) by done. fold m1.
  apply Nat.eqb_neq in Hs as Hs'. rewrite Hp, Hs', do_while_S.
  rewrite evaluate_unknown by (by rewrite ?Hp).
  eexists. split; [done|]. repeat split.
  - cbn [m_current_state set_nesting_state set_next_state]. unfold m1.
    cbn [m_current_state set_nesting].
    by destruct (moved_frame t cst nst m0) as (-> & _).
  - by cbn [m_next_state set_nesting_state set_next_state].
  - change (callbacks (set_nesting_state CANNOT_HAPPEN
                         (set_next_state (m_nesting_state m1) m1)))
      with (callbacks (moved t cst nst m0)).
    rewrite callbacks_moved, He. done.
Qed.

(** ** Callbacks under the re-entrancy flag *)

(** X13.  While an evaluation is active a callback cannot start another
    one: whatever its body does (any number of calls to [transition], for
    any state, sentinel or out of range, with any record) it runs to its
    end; the current state and the flag are as it found them, no other
    callback ran inside it, and the pending slot holds its last request
    (what it held before, if the body made none). *)
Theorem callback_only_defers {R : Type} k (c : code R) (m : StateMachine) :
  m_nesting m = true ->
  exists m',
    exec (transition (S k)) c m
    = Done (result_of c (state m) (members m)) m'
    /\ m_current_state m' = m_current_state m
    /\ m_nesting m' = true
    /\ m_nesting_state m'
       = default (m_nesting_state m)
           (last (requests_of c (state m) (members m)))
    /\ members m' = members_after c (state m) (members m)
    /\ callbacks m' = callbacks m.
Proof.
  intros Hn. rewrite exec_nested by done.
  eexists. split; [done|]. repeat split; [done|].
  apply callbacks_absorbed.
Qed.

(** ** Calls that complete in one pass *)

Local Abbreviation all_silent := (all_silent xbody bbody).
Local Abbreviation members_kept := (members_kept xbody bbody).


(** X11.  When no method of the derived class calls [transition], a call
    made outside an active evaluation is over after one pass of the loop:
    two units of fuel are enough for it to return, exit or fault. *)
Theorem silent_class_one_pass k s tr (m : StateMachine) :
  all_silent ->
  m_nesting m = false ->
  transition (S (S k)) s tr m <> OutOfFuel.
Proof.
  intros [Hx Hb] Hidle.
  rewrite transition_idle, do_while_S by done.
  assert (match evaluate (transition (S k)) tr (set_nesting_state s m) with
          | Next m1 => m_nesting_state m1 = CANNOT_HAPPEN
          | Leave o => o <> OutOfFuel
          end) as H.
  { apply (evaluate_cases
             (fun fl => match fl with
                | Next m1 => m_nesting_state m1 = CANNOT_HAPPEN
                | Leave o => o <> OutOfFuel
                end)); try done.
    - intros t cst nst _ _ _ _ _ _ _. cbn [m_nesting_state set_nesting].
      apply pending_moved_silent; intros ? _; auto.
    - intros t cst nst _ _ _ _ _ _ _. cbn [m_nesting_state set_nesting].
      apply pending_acted_silent; intros ? _; auto. }
  destruct (evaluate _ _ _) as [m1|o]; [|done].
  by rewrite H, Nat.eqb_refl.
Qed.

(** ** What the engine leaves to the callbacks *)

Lemma members_after_call_kept {R : Type} e (c : code R) (m : StateMachine) :
  (forall s u, members_after c s u = u) ->
  members (after_call e c m) = members m.
Proof. intros H. unfold after_call, absorbed. cbn [members]. apply H. Qed.

Lemma members_after_invoke_kept ev f (m : StateMachine) :
  members_kept -> members (after_invoke ev f m) = members m.
Proof.
  intros [Hx _]. destruct f as [f|]; [|done].
  cbn [Engine.after_invoke]. by apply members_after_call_kept.
Qed.

Lemma members_acted_kept t (m : StateMachine) :
  members_kept -> members (acted t m) = members m.
Proof.
  intros Hk. unfold Engine.acted. rewrite members_after_invoke_kept by done.
  destruct Hk as [_ Hb]. destruct (guard t) as [g|]; [|done].
  cbn [Engine.after_guard]. by rewrite members_after_call_kept.
Qed.

Lemma members_moved_kept t cst nst (m : StateMachine) :
  members_kept -> members (moved t cst nst m) = members m.
Proof.
  intros Hk. unfold Engine.moved.
  rewrite !members_after_invoke_kept by done. by apply members_acted_kept.
Qed.

(** X12.  The engine writes no member of the derived class: when no
    method changes the members, a call returns them as it found them,
    however many passes it made. *)
Theorem engine_keeps_members fuel s tr (m m' : StateMachine) :
  members_kept ->
  transition fuel s tr m = Returned m' ->
  members m' = members m.
Proof.
  intros Hk. revert m'.
  set (Q := fun o => forall m' : StateMachine, o = Returned m' ->
     members m' = members m).
  apply (transition_cases Q); [done | by intros _ m' [= <-] |].
  intros k _.
  apply (do_while_invariant (fun m0 => members m0 = members m) Q);
    [done | | done].
  intros m0 H0.
  apply (evaluate_cases
           (fun fl => match fl with
              | Next m1 =>
                  members m1 = members m
                  /\ (m_nesting_state m1 = CANNOT_HAPPEN -> Q (Returned m1))
              | Leave o => Q o
              end)); unfold Q; try done.
  - by intros _ _ m' [= <-].
  - intros t cst nst _ _ _ _ _ m' [= <-].
    cbn [members set_nesting set_current_state].
    destruct Hk as [_ Hb]. destruct (guard t) as [g|]; [|done].
    cbn [Engine.after_guard]. by rewrite members_after_call_kept.
  - intros t cst nst f _ _ _ _ _ _ m' [= <-].
    rewrite members_after_call_kept by apply Hk.
    by rewrite members_acted_kept.
  - intros t cst nst _ _ _ _ _ _ _.
    assert (members (set_nesting false (moved t cst nst m0)) = members m) as E
      by (cbn [members set_nesting]; by rewrite members_moved_kept).
    split; [done|]. by intros _ m' [= <-].
  - intros t cst nst _ _ _ _ _ _ _.
    assert (members (set_nesting false (acted t m0)) = members m) as E
      by (cbn [members set_nesting]; by rewrite members_acted_kept).
    split; [done|]. by intros _ m' [= <-].
Qed.

(** ** A loop without end *)

(** X9.  The engine puts no bound on a chain of requests: when the
    entering handler of [A] always ends by requesting [B] and that of [B]
    by requesting [A], a call that starts the exchange never returns; no
    amount of fuel gives an outcome. *)
Theorem mutual_requests_never_return fuel (m : StateMachine) t ea eb A B
    stA stB :
  m_nesting m = false ->
  m_current_state m = A ->
  A <> B ->
  is_real A = true ->
  is_real B = true ->
  m_states !! A = Some stA ->
  m_states !! B = Some stB ->
  onevent stA = None ->
  onevent stB = None ->
  (forall s u, guard_verdict (guard t) s u = true) ->
  entering stA = Some ea ->
  entering stB = Some eb ->
  (forall s u, last (requests_of (xbody ea) s u) = Some B) ->
  (forall s u, last (requests_of (xbody eb) s u) = Some A) ->
  transition fuel B (Some t) m = OutOfFuel.
Proof.
  intros Hidle HA Hne HrA HrB HsA HsB HoA HoB Hg HeA HeB HlA HlB.
  destruct fuel as [|[|k]]; [done | by rewrite transition_idle |].
  rewrite transition_idle by done.
  assert (forall n (m0 : StateMachine),
            (m_current_state m0 = A /\ m_nesting_state m0 = B)
            \/ (m_current_state m0 = B /\ m_nesting_state m0 = A) ->
            do_while (transition (S k)) n (Some t) m0 = OutOfFuel) as Hloop.
  { induction n as [|n IH]; intros m0 Hm0; [done|].
    destruct (is_real_tests _ HrA) as (EA & _ & _).
    destruct (is_real_tests _ HrB) as (EB & _ & _).
    rewrite do_while_S. destruct Hm0 as [[Hc Hp] | [Hc Hp]].
    - rewrite (evaluate_change _ _ _ stA stB)
        by (rewrite ?Hc, ?Hp; done).
      assert (m_nesting_state (set_nesting false (moved t stA stB m0)) = A)
        as Hp1.
      { unfold Engine.moved. cbn [m_nesting_state set_nesting].
        rewrite HeB. by apply pending_after_invoke_last. }
      rewrite Hp1, EA. apply IH. right. split; [|done].
      cbn [m_current_state set_nesting].
      by destruct (moved_frame t stA stB m0) as (-> & _).
    - rewrite (evaluate_change _ _ _ stB stA)
        by (rewrite ?Hc, ?Hp; done).
      assert (m_nesting_state (set_nesting false (moved t stB stA m0)) = B)
        as Hp1.
      { unfold Engine.moved. cbn [m_nesting_state set_nesting].
        rewrite HeA. by apply pending_after_invoke_last. }
      rewrite Hp1, EB. apply IH. left. split; [|done].
      cbn [m_current_state set_nesting].
      by destruct (moved_frame t stB stA m0) as (-> & _). }
  apply Hloop. left. by split.
Qed.

(** ** Chains of any length *)

Local Abbreviation handlers_of := (handlers_of m_states).
Local Abbreviation handlers_along := (handlers_along m_states).
Local Abbreviation chain :=
  (chain IGNORING_EVENT CANNOT_HAPPEN MAX_STATES xbody m_states).

Lemma do_while_chain j (t : Transition) rest :
  (forall s u, guard_verdict (guard t) s u = true) ->
  (forall g, guard t = Some g -> silent (bbody g)) ->
  silent_opt (action t) ->
  forall p s n (m : StateMachine),
    m_current_state m = p ->
    m_nesting_state m = s ->
    chain p (s :: rest) ->
    exists m',
      do_while (transition (S j)) (S (length rest + n)) (Some t) m
      = Returned m'
      /\ m_current_state m' = default s (last (s :: rest))
      /\ m_nesting m' = false
      /\ m_nesting_state m' = CANNOT_HAPPEN
      /\ state_handlers m' = state_handlers m ++ handlers_along p (s :: rest).
Proof.
  intros Hg Hgs Has.
  induction rest as [|s' rest IH]; intros p s n m Hc Hp Hch.
  - destruct Hch as (Hne & Hreal & (stp & sts & Hsp & Hss & Hon & Hls & Hes) & _).
    rewrite do_while_S.
    rewrite (evaluate_change _ _ _ stp sts) by (rewrite ?Hc, ?Hp; done).
    cbn [m_nesting_state set_nesting].
    rewrite pending_moved_silent, Nat.eqb_refl by done.
    eexists. split; [done|]. repeat split.
    + cbn [m_current_state set_nesting].
      by destruct (moved_frame t stp sts m) as (-> & _).
    + by apply pending_moved_silent.
    + change (state_handlers (set_nesting false ?x)) with (state_handlers x).
      rewrite state_handlers_moved, Hc, Hp.
      cbn [Engine.handlers_along]. unfold Engine.handlers_of.
      by rewrite Hsp, Hss, app_nil_r.
  - destruct Hch as (Hne & Hreal
                     & (stp & sts & Hsp & Hss & Hon & Hls & e & He & Hlast)
                     & Hch).
    set (m1 := set_nesting false (moved t stp sts m)).
    assert (m_nesting_state m1 = s') as Hp1.
    { unfold m1, Engine.moved. cbn [m_nesting_state set_nesting].
      rewrite He. by apply pending_after_invoke_last. }
    assert (m_current_state m1 = s) as Hc1.
    { unfold m1. cbn [m_current_state set_nesting].
      by destruct (moved_frame t stp sts m) as (-> & _). }
    assert (is_real s' = true) as Hr' by (by destruct Hch as (_ & ? & _)).
    destruct (is_real_tests _ Hr') as (E' & _ & _).
    rewrite do_while_S.
    rewrite (evaluate_change _ _ _ stp sts) by (rewrite ?Hc, ?Hp; done).
    fold m1. rewrite Hp1, E'.
    destruct (IH s s' n m1 Hc1 Hp1 Hch) as (m' & Hrun & Hcur & Hflag & Hpend & Hh).
    exists m'. cbn [length Nat.add]. split; [exact Hrun|].
    repeat split; try done.
    + rewrite Hcur, !last_cons. by destruct (last rest).
    + rewrite Hh. unfold m1.
      change (state_handlers (set_nesting false ?x)) with (state_handlers x).
      rewrite state_handlers_moved, Hc, Hp, <- app_assoc.
      f_equal. cbn [Engine.handlers_along]. f_equal.
      unfold Engine.handlers_of. by rewrite Hsp, Hss.
Qed.

(** X14.  Chains of any length are drained in order.  An event resolves
    [A] to [B]; from [A] the states [B :: rest] follow each other by
    request (the entering handler of each requests the next one, last);
    the guard of the record allows whenever it is consulted and neither
    it nor the action requests anything.  Then the call returns in the
    last state of the chain, the flag clear and nothing pending, having
    run the leaving and entering handlers of every move, in the order of
    the chain; the fuel needed grows by one pass per state. *)
Theorem chain_of_requests_is_drained k (m : StateMachine) t A B rest :
  m_nesting m = false ->
  m_current_state m = A ->
  chain A (B :: rest) ->
  (forall s u, guard_verdict (guard t) s u = true) ->
  (forall g, guard t = Some g -> silent (bbody g)) ->
  silent_opt (action t) ->
  exists m',
    transition (S (S (length rest + k))) B (Some t) m = Returned m'
    /\ m_current_state m' = default B (last (B :: rest))
    /\ m_nesting m' = false
    /\ m_nesting_state m' = CANNOT_HAPPEN
    /\ state_handlers m' = state_handlers m ++ handlers_along A (B :: rest).
Proof.
  intros Hidle HA Hch Hg Hgs Has.
  rewrite transition_idle by done.
  by apply (do_while_chain (length rest + k) t rest Hg Hgs Has A B k
              (set_nesting_state B m)).
Qed.

(** ** From construction, through any sequence of events *)

Local Abbreviation construct := (construct CANNOT_HAPPEN MAX_STATES).
Local Abbreviation dispatch_all :=
  (dispatch_all IGNORING_EVENT CANNOT_HAPPEN MAX_STATES xbody bbody m_states).

Lemma transition_table_keeps_initial fuel
    (transitions : gmap StateId Transition) (m m' : StateMachine) :
  transition_table fuel transitions m = Returned m' ->
  m_initial_state m' = m_initial_state m.
Proof.
  unfold Engine.transition_table.
  destruct (transitions !! m_current_state m); apply transition_keeps_initial.
Qed.

Lemma dispatch_all_invariant fuel (events : list (gmap StateId Transition)) :
  forall (m : StateMachine) mf,
    dispatch_all fuel events m <> Fault NullTransition mf
    /\ (forall m', dispatch_all fuel events m = Returned m' ->
          m_initial_state m' = m_initial_state m).
Proof.
  induction events as [|ev rest IH]; intros m mf.
  - cbn [Engine.dispatch_all]. split; [done|]. by intros m' [= <-].
  - cbn [Engine.dispatch_all].
    destruct (transition_table fuel ev m) as [m1|m1|f1 m1|] eqn:Hcall.
    + destruct (IH m1 mf) as [Hnf Hin]. split; [done|].
      intros m' Hm'. rewrite (Hin m' Hm').
      by apply (transition_table_keeps_initial fuel ev).
    + by split.
    + split; [|done]. intros [= -> ->]. revert Hcall.
      unfold Engine.transition_table.
      destruct (ev !! m_current_state m) as [t|].
      * by apply transition_reads_no_null.
      * apply transition_reads_no_null. intros _.
        unfold Engine.is_real. rewrite Nat.eqb_refl.
        by rewrite andb_false_r.
    + by split.
Qed.

(** X16.  From construction on: a machine whose construction passed
    [assert(initial < MAX_STATES)] goes through any sequence of events
    dispatched through the table overload without ever reading through a
    null record, and whenever the sequence returns, [reset()] brings the
    machine back to the state it was constructed in. *)
Theorem event_sequence_keeps_initial_state fuel initial garbage u
    (m mf : StateMachine) (events : list (gmap StateId Transition)) :
  construct initial garbage u = Some m ->
  dispatch_all fuel events m <> Fault NullTransition mf
  /\ (forall m', dispatch_all fuel events m = Returned m' ->
        state (reset CANNOT_HAPPEN m') = initial).
Proof.
  intros Hc. unfold Engine.construct in Hc.
  destruct (initial <? MAX_STATES); [|done]. injection Hc as <-.
  destruct (dispatch_all_invariant fuel events
              (StateMachine_new CANNOT_HAPPEN initial garbage u) mf)
    as [Hnf Hin].
  split; [done|]. intros m' Hm'. exact (Hin m' Hm').
Qed.

End Properties.

(** * The properties on the motor controller *)

Import Motor.

(** C4 on the motor: the record [refused] in [IDLE]. *)
Lemma guard_refusal_rolls_back_witness :
  exists m',
    run counting_states 10 STARTING (Some refused) (fresh IDLE) = Returned m'
    /\ m_current_state m' = IDLE
    /\ m_nesting m' = false
    /\ callbacks m' = [CallGuard Refuse].
Proof.
  apply (guard_refusal_rolls_back IGNORING_EVENT CANNOT_HAPPEN MAX_STATES
           xbody bbody counting_states 8 (fresh IDLE) refused Refuse STARTING
           (mkState None (Some Tick) None) (mkState (Some Tick) None None));
    reflexivity.
Defined.



(** C7 on the motor: "set speed" has no entry for [STOPPING]. *)
Lemma ignoring_event_is_noop_witness :
  returned_unchanged (fresh STOPPING)
    (dispatch counting_states 10 set_speed (fresh STOPPING)).
Proof.
  apply (ignoring_event_is_noop IGNORING_EVENT CANNOT_HAPPEN MAX_STATES
           xbody bbody counting_states 8 (fresh STOPPING) None set_speed);
    [discriminate | reflexivity].
Defined.

(** X17 on the motor: an event forbidden in [IDLE]. *)
Lemma forbidden_or_unknown_state_exits_witness :
  exited_untouched (fresh IDLE)
    (dispatch counting_states 10 forbidden (fresh IDLE)).
Proof.
  apply (forbidden_or_unknown_state_exits IGNORING_EVENT CANNOT_HAPPEN
           MAX_STATES xbody bbody counting_states 8 (fresh IDLE) None
           CANNOT_HAPPEN forbidden);
    [unfold IGNORING_EVENT, MAX_STATES; lia | reflexivity
    | left; reflexivity | reflexivity].
Defined.

(** C9 on the motor: [transition(STARTING)] in [IDLE]. *)
Lemma null_transition_record_faults_witness :
  run counting_states 10 STARTING None (fresh IDLE)
  = Fault NullTransition
      (mkStateMachine STARTING IDLE STARTING CANNOT_HAPPEN true 0 []).
Proof.
  apply (null_transition_record_faults IGNORING_EVENT CANNOT_HAPPEN MAX_STATES
           xbody bbody counting_states 8 (fresh IDLE) STARTING
           (mkState None (Some Tick) None) (mkState (Some Tick) None None));
    reflexivity.
Defined.

(** C10 on the motor: entering [STARTING] requests [CANNOT_HAPPEN]. *)
Lemma deferred_cannot_happen_is_silent_witness :
  (exists m',
     run trap_states 10 STARTING (Some plain) (fresh IDLE) = Returned m'
     /\ m_current_state m' = STARTING
     /\ m_nesting m' = false
     /\ m_nesting_state m' = CANNOT_HAPPEN)
  /\ (exists m',
        run trap_states 10 CANNOT_HAPPEN (Some plain) (fresh IDLE) = Exited m').
Proof.
  destruct (deferred_cannot_happen_is_silent IGNORING_EVENT CANNOT_HAPPEN
              MAX_STATES xbody bbody trap_states 8 (fresh IDLE) plain
              (Request CANNOT_HAPPEN) IDLE STARTING no_reaction
              (mkState (Some (Request CANNOT_HAPPEN)) None None))
    as (_ & Hdeferred & Hdirect & _);
    first [reflexivity | discriminate | idtac].
  split; [exact Hdeferred | exact Hdirect].
Defined.

(** C1, amended, on the motor: leaving [IDLE] requests [SPINNING], and
    [STARTING] has no entering handler. *)
Lemma chained_request_completes_in_order_witness :
  exists m',
    run handover_states 10 STARTING (Some allowed) (fresh IDLE) = Returned m'
    /\ m_current_state m' = SPINNING
    /\ m_nesting m' = false
    /\ m_nesting_state m' = CANNOT_HAPPEN
    /\ state_handlers m'
       = [CallLeaving IDLE (Request SPINNING); CallLeaving STARTING Tick;
          CallEntering SPINNING Tick].
Proof.
  apply (chained_request_completes_in_order IGNORING_EVENT CANNOT_HAPPEN
           MAX_STATES xbody bbody handover_states 7 (fresh IDLE) allowed
           IDLE STARTING SPINNING
           (mkState None (Some (Request SPINNING)) None)
           (mkState None (Some Tick) None)
           (mkState (Some Tick) None None));
    first [reflexivity | discriminate].
Defined.

(** C1, as stated, fails.  The event resolves [IDLE] to [STARTING]; during
    that evaluation the leaving handler of [IDLE] requests [SPINNING], and
    the entering handler of [STARTING] then requests [STOPPING].  The
    pending slot holds one state: the later request replaces the earlier
    one, which is never drained, and the machine ends in [STOPPING], not
    in [SPINNING]. *)
Lemma overwritten_request_is_dropped :
  exists m',
    run racing_states 10 STARTING (Some plain) (fresh IDLE) = Returned m'
    /\ call_log m'
       = [CallLeaving IDLE (Request SPINNING); Memorize SPINNING;
          CallEntering STARTING (Request STOPPING); Memorize STOPPING;
          CallEntering STOPPING Tick]
    /\ m_current_state m' = STOPPING
    /\ m_current_state m' <> SPINNING.
Proof.
  eexists. split; [vm_compute; reflexivity|]. repeat split. discriminate.
Qed.

(** C2.  The code on a deferred request.  The event resolves [IDLE] to
    [STARTING] through a record with a guard and an action, and the
    entering handler of [STARTING] requests [SPINNING].  The loop
    evaluates the deferred request with the record of the event: its
    guard is consulted and its action run a second time.  With a guard
    that allows only as long as the counter is zero, the deferred request
    is refused by the guard of the event and the machine stays in
    [STARTING]. *)
Theorem deferred_request_reuses_record :
  (exists m',
     run chain_states 10 STARTING (Some allowed) (fresh IDLE) = Returned m'
     /\ call_log m'
        = [CallGuard Allow; CallAction Tick; CallLeaving IDLE Tick;
           CallEntering STARTING (Request SPINNING); Memorize SPINNING;
           CallGuard Allow; CallAction Tick; CallLeaving STARTING Tick;
           CallEntering SPINNING Tick])
  /\ (exists m',
        run chain_states 10 STARTING (Some once) (fresh IDLE) = Returned m'
        /\ call_log m'
           = [CallGuard Unticked; CallAction Tick; CallLeaving IDLE Tick;
              CallEntering STARTING (Request SPINNING); Memorize SPINNING;
              CallGuard Unticked]
        /\ m_current_state m' = STARTING).
Proof.
  split; eexists; (split; [vm_compute; reflexivity|]); repeat split.
Qed.

(** C3.  The code on the on-event return.  [IDLE] has an on-event handler
    and the event resolves [IDLE] to [STARTING]: the call returns with the
    re-entrancy flag still set.  The next event, dispatched from outside,
    is then taken for an internal one: it is memorised and nothing is
    evaluated. *)
Theorem onevent_return_keeps_flag_set :
  exists m',
    run onevent_states 10 STARTING (Some plain) (fresh IDLE) = Returned m'
    /\ m_nesting m' = true
    /\ m_current_state m' = STARTING
    /\ exists m'',
         run onevent_states 10 SPINNING (Some (mkTransition SPINNING None None))
           m' = Returned m''
         /\ m_current_state m'' = STARTING
         /\ m_nesting_state m'' = SPINNING
         /\ m_nesting m'' = true
         /\ call_log m'' = [CallOnEvent IDLE Noop; Memorize SPINNING].
Proof.
  eexists. split; [vm_compute; reflexivity|]. repeat split.
  eexists. split; [vm_compute; reflexivity|]. repeat split.
Qed.

(** C8.  The code on a forbidden event after an on-event reaction.
    [IDLE] has an on-event handler: the event "set speed" returns with
    the re-entrancy flag still set (the defect of C3).  The next event,
    dispatched from outside and resolved to [CANNOT_HAPPEN] by its table,
    is taken for an internal request: it is memorised and the call
    returns; the process does not exit. *)
Theorem stuck_flag_swallows_forbidden_event :
  exists m',
    dispatch onevent_states 10 set_speed (fresh IDLE) = Returned m'
    /\ m_current_state m' = STARTING
    /\ m_nesting m' = true
    /\ resolve IGNORING_EVENT forbidden_in_starting (m_current_state m')
       = CANNOT_HAPPEN
    /\ exists m'',
         dispatch onevent_states 10 forbidden_in_starting m' = Returned m''
         /\ m_current_state m'' = STARTING
         /\ m_nesting_state m'' = CANNOT_HAPPEN
         /\ call_log m'' = [CallOnEvent IDLE Noop; Memorize CANNOT_HAPPEN].
Proof.
  eexists. split; [vm_compute; reflexivity|]. repeat split.
  eexists. split; [vm_compute; reflexivity|]. repeat split.
Qed.

(** * More of the engine, on the motor controller *)

(** X1 on the motor: after the chain from [IDLE] to [SPINNING]. *)
Lemma reset_restores_after_any_call_witness :
  state (reset CANNOT_HAPPEN
           (mkStateMachine SPINNING IDLE SPINNING CANNOT_HAPPEN false 5
              [CallGuard Allow; CallAction Tick; CallLeaving IDLE Tick;
               CallEntering STARTING (Request SPINNING); Memorize SPINNING;
               CallGuard Allow; CallAction Tick; CallLeaving STARTING Tick;
               CallEntering SPINNING Tick]))
  = IDLE.
Proof.
  apply (reset_restores_after_any_call IGNORING_EVENT CANNOT_HAPPEN MAX_STATES
           xbody bbody chain_states 10 STARTING (Some allowed) (fresh IDLE)).
  vm_compute. reflexivity.
Defined.

(** X2 on the motor: the same run ends in a real state. *)
Lemma current_state_stays_real_witness :
  is_real IGNORING_EVENT CANNOT_HAPPEN MAX_STATES
    (m_current_state
       (mkStateMachine SPINNING IDLE SPINNING CANNOT_HAPPEN false 5
          [CallGuard Allow; CallAction Tick; CallLeaving IDLE Tick;
           CallEntering STARTING (Request SPINNING); Memorize SPINNING;
           CallGuard Allow; CallAction Tick; CallLeaving STARTING Tick;
           CallEntering SPINNING Tick]))
  = true.
Proof.
  apply (current_state_stays_real IGNORING_EVENT CANNOT_HAPPEN MAX_STATES
           xbody bbody chain_states 10 STARTING (Some allowed) (fresh IDLE));
    [reflexivity | vm_compute; reflexivity].
Defined.

Lemma counting_states_no_onevent : no_onevent counting_states.
Proof.
  intros i st H.
  do 6 (destruct i as [|i]; [by injection H as <- |]). done.
Defined.

(** X4 on the motor: no state of [counting_states] has an on-event
    handler. *)
Lemma no_onevent_returns_idle_witness :
  m_nesting
    (mkStateMachine STARTING IDLE STARTING CANNOT_HAPPEN false 3
       [CallGuard Allow; CallAction Tick; CallLeaving IDLE Tick;
        CallEntering STARTING Tick])
  = false.
Proof.
  apply (no_onevent_returns_idle IGNORING_EVENT CANNOT_HAPPEN MAX_STATES
           xbody bbody counting_states 10 STARTING (Some allowed) (fresh IDLE));
    [exact counting_states_no_onevent | reflexivity | vm_compute; reflexivity].
Defined.


(** X6 on the motor. *)
Lemma deferred_ignoring_event_returns_witness :
  exists m',
    run ignore_states 10 STARTING (Some allowed) (fresh IDLE) = Returned m'
    /\ m_current_state m' = STARTING
    /\ m_nesting m' = false
    /\ m_nesting_state m' = CANNOT_HAPPEN
    /\ callbacks m'
       = [CallGuard Allow; CallAction Tick; CallLeaving IDLE Tick;
          CallEntering STARTING (Request IGNORING_EVENT)].
Proof.
  apply (deferred_ignoring_event_returns IGNORING_EVENT CANNOT_HAPPEN
           MAX_STATES xbody bbody ignore_states 7 (fresh IDLE) allowed
           (Request IGNORING_EVENT) IDLE STARTING
           (mkState None (Some Tick) None)
           (mkState (Some (Request IGNORING_EVENT)) None None));
    first [reflexivity | discriminate].
Defined.

(** X7 on the motor. *)
Lemma deferred_unknown_state_exits_witness :
  exists m',
    run unknown_states 10 STARTING (Some allowed) (fresh IDLE) = Exited m'
    /\ m_current_state m' = STARTING
    /\ m_next_state m' = 9
    /\ callbacks m'
       = [CallGuard Allow; CallAction Tick; CallLeaving IDLE Tick;
          CallEntering STARTING (Request 9)].
Proof.
  apply (deferred_unknown_state_exits IGNORING_EVENT CANNOT_HAPPEN
           MAX_STATES xbody bbody unknown_states 7 (fresh IDLE) allowed
           (Request 9) IDLE STARTING 9
           (mkState None (Some Tick) None)
           (mkState (Some (Request 9)) None None));
    first [reflexivity | discriminate
          | vm_compute; lia ].
Defined.


(** X9 on the motor: [IDLE] and [STARTING] request each other. *)
Lemma mutual_requests_never_return_witness :
  run pingpong_states 1000 STARTING (Some plain) (fresh IDLE) = OutOfFuel.
Proof.
  apply (mutual_requests_never_return IGNORING_EVENT CANNOT_HAPPEN MAX_STATES
           xbody bbody pingpong_states 1000 (fresh IDLE) plain
           (Request STARTING) (Request IDLE) IDLE STARTING
           (mkState (Some (Request STARTING)) None None)
           (mkState (Some (Request IDLE)) None None));
    first [reflexivity | discriminate].
Defined.

(** X10 on the motor. *)
Lemma onevent_return_keeps_the_move_witness :
  exists m',
    run onevent_states 10 STARTING (Some allowed) (fresh IDLE) = Returned m'
    /\ m_current_state m' = STARTING
    /\ state_handlers m' = [CallOnEvent IDLE Noop].
Proof.
  apply (onevent_return_keeps_the_move IGNORING_EVENT CANNOT_HAPPEN MAX_STATES
           xbody bbody onevent_states 8 (fresh IDLE) allowed Noop IDLE STARTING
           (mkState (Some Tick) (Some Tick) (Some Noop))
           (mkState (Some Tick) None None));
    reflexivity.
Defined.

(** X11 on the class whose methods do nothing. *)
Lemma silent_class_one_pass_witness :
  transition IGNORING_EVENT CANNOT_HAPPEN MAX_STATES still_xbody still_bbody
    counting_states 2 STARTING (Some allowed) (fresh IDLE)
  <> OutOfFuel.
Proof.
  apply (silent_class_one_pass IGNORING_EVENT CANNOT_HAPPEN MAX_STATES
           still_xbody still_bbody counting_states 0 STARTING (Some allowed)
           (fresh IDLE));
    [ split; [intros f s u; reflexivity | intros [] s u; reflexivity]
    | reflexivity ].
Defined.

(** X12 on the class whose methods do nothing. *)
Lemma engine_keeps_members_witness :
  members
    (mkStateMachine STARTING IDLE STARTING CANNOT_HAPPEN false 0
       [CallGuard Allow; CallAction Tick; CallLeaving IDLE Tick;
        CallEntering STARTING Tick])
  = members (fresh IDLE).
Proof.
  apply (engine_keeps_members IGNORING_EVENT CANNOT_HAPPEN MAX_STATES
           still_xbody still_bbody counting_states 10 STARTING (Some allowed)
           (fresh IDLE));
    [ split; [intros f s u; reflexivity | intros [] s u; reflexivity]
    | vm_compute; reflexivity ].
Defined.

(** X13 on the motor: a body requesting [SPINNING] while an evaluation is
    active. *)
Lemma callback_only_defers_witness :
  exists m',
    exec (run counting_states 5) (xbody (Request SPINNING))
      (set_nesting true (fresh IDLE))
    = Done tt m'
    /\ m_current_state m' = IDLE
    /\ m_nesting m' = true
    /\ m_nesting_state m' = SPINNING
    /\ members m' = 0
    /\ callbacks m' = [].
Proof.
  apply (callback_only_defers IGNORING_EVENT CANNOT_HAPPEN MAX_STATES
           xbody bbody counting_states 4 (xbody (Request SPINNING))
           (set_nesting true (fresh IDLE))).
  reflexivity.
Defined.

Lemma tour_is_a_chain :
  chain IGNORING_EVENT CANNOT_HAPPEN MAX_STATES xbody tour_states
    IDLE [STARTING; SPINNING; STOPPING].
Proof.
  repeat split; try discriminate.
  - exists (mkState None (Some Tick) None),
      (mkState (Some (Request SPINNING)) None None).
    repeat split; [by intros ? [= <-]|]. by exists (Request SPINNING).
  - exists (mkState (Some (Request SPINNING)) None None),
      (mkState (Some (Request STOPPING)) (Some Tick) None).
    repeat split; [by intros ? [=]|]. by exists (Request STOPPING).
  - exists (mkState (Some (Request STOPPING)) (Some Tick) None),
      (mkState (Some Tick) None None).
    repeat split; by intros ? [= <-].
Defined.

(** X14 on the motor: [IDLE], [STARTING], [SPINNING], [STOPPING]. *)
Lemma chain_of_requests_is_drained_witness :
  exists m',
    run tour_states 10 STARTING (Some plain) (fresh IDLE) = Returned m'
    /\ m_current_state m' = STOPPING
    /\ m_nesting m' = false
    /\ m_nesting_state m' = CANNOT_HAPPEN
    /\ state_handlers m'
       = [CallLeaving IDLE Tick; CallEntering STARTING (Request SPINNING);
          CallEntering SPINNING (Request STOPPING);
          CallLeaving SPINNING Tick; CallEntering STOPPING Tick].
Proof.
  apply (chain_of_requests_is_drained IGNORING_EVENT CANNOT_HAPPEN MAX_STATES
           xbody bbody tour_states 6 (fresh IDLE) plain IDLE STARTING
           [SPINNING; STOPPING]);
    first [ reflexivity | exact tour_is_a_chain | by intros ? [=] ].
Defined.

(** X16 on the motor: constructed in [IDLE], then "set speed" twice and
    the event forbidden in [IDLE]. *)
Lemma event_sequence_keeps_initial_state_witness :
  dispatch_all IGNORING_EVENT CANNOT_HAPPEN MAX_STATES xbody bbody
    counting_states 10 [set_speed; set_speed; forbidden] (fresh IDLE)
  <> Fault NullTransition (fresh IDLE).
Proof.
  apply (event_sequence_keeps_initial_state IGNORING_EVENT CANNOT_HAPPEN
           MAX_STATES xbody bbody counting_states 10 IDLE 0 0 (fresh IDLE)
           (fresh IDLE) [set_speed; set_speed; forbidden]).
  reflexivity.
Defined.
